(** * news_producer: a shallow embedding of [producers/news_producer.py]

    The producer polls a news API once per tracked company and republishes
    every article, enriched with the company's symbol and name, on a Kafka
    topic.  The embedding follows the Python source function by function:

    - JSON documents ([response.json()], the articles) are values of [pyval];
    - exceptions are values of [exn], threaded by a small state-and-error
      monad [M] that also records the externally visible events (log lines,
      HTTP requests, publishes, sleeps) in a trace;
    - the outside world (clock, news API, broker, interrupt signal) is an
      oracle [Env] answering the n-th call of each kind;
    - [while True] is a fuel-indexed fixpoint counting cycles. *)

From Stdlib Require Import ZArith Ascii String List Bool Lia.
From stdpp Require Import base strings gmap.
Import ListNotations.

Local Open Scope string_scope.
Local Open Scope list_scope.
Local Open Scope Z_scope.

Set Warnings "-register-all".

(** ** Python values *)

(** The JSON fragment of Python's values, as produced by [response.json()].
    A [PDict] lists the items of a dict, keys unique; floats behave like
    [PInt] for every operation the producer applies (they have no [.get],
    are neither subscriptable nor iterable). *)
Inductive pyval : Type :=
  | PNone
  | PBool (b : bool)
  | PInt (z : Z)
  | PStr (s : string)
  | PList (items : list pyval)
  | PDict (items : list (string * pyval)).

(** ** Exceptions *)

(** [requests.exceptions.RequestException] and the subclasses the calls of
    [fetch_news] raise; the [JSONDecodeError] of [response.json()] is the
    one of [requests.exceptions], a [RequestException] too. *)
Inductive request_exception : Type :=
  | HTTPError (status_code : Z)      (* response.raise_for_status() *)
  | ConnectionError                  (* connection refused, DNS failure *)
  | ReadTimeout                      (* requests.exceptions.Timeout *)
  | JSONDecodeError.                 (* response.json() on a non-JSON body *)

(** [kafka.errors.KafkaError] and subclasses. *)
Inductive kafka_error : Type :=
  | KafkaTimeoutError                (* metadata or acknowledgment timeout *)
  | NoBrokersAvailable               (* no broker answers the constructor *)
  | BrokerResponseError (code : Z).

(** The exception classes that occur in the producer.  All of them derive
    from [Exception] except [KeyboardInterrupt], which derives from
    [BaseException] only. *)
Inductive exn : Type :=
  | RequestException (e : request_exception)
  | KafkaError (e : kafka_error)
  | KeyError (key : string)
  | TypeError
  | AttributeError
  | ValueError
  | OverflowError
  | KeyboardInterrupt.

Definition is_RequestException (e : exn) : bool :=
  match e with RequestException _ => true | _ => false end.

Definition is_KafkaError (e : exn) : bool :=
  match e with KafkaError _ => true | _ => false end.

Definition is_KeyboardInterrupt (e : exn) : bool :=
  match e with KeyboardInterrupt => true | _ => false end.

(** [isinstance(e, Exception)] *)
Definition is_Exception (e : exn) : bool := negb (is_KeyboardInterrupt e).

Inductive result (A : Type) : Type :=
  | Ok (a : A)
  | Raise (e : exn).
Arguments Ok {A} a.
Arguments Raise {A} e.

(** ** Operations on Python values *)

Fixpoint dict_lookup (key : string) (items : list (string * pyval)) : option pyval :=
  match items with
  | [] => None
  | (k, v) :: rest => if String.eqb k key then Some v else dict_lookup key rest
  end.

(** [d.get(key, default)]: only a dict has the method. *)
Definition py_get (d : pyval) (key : string) (default : pyval) : result pyval :=
  match d with
  | PDict items =>
      match dict_lookup key items with
      | Some v => Ok v
      | None => Ok default
      end
  | _ => Raise AttributeError
  end.

(** [d[key]] for a [str] key: a dict looks the key up, any other value
    rejects a string subscript. *)
Definition py_getitem (d : pyval) (key : string) : result pyval :=
  match d with
  | PDict items =>
      match dict_lookup key items with
      | Some v => Ok v
      | None => Raise (KeyError key)
      end
  | _ => Raise TypeError
  end.

(** [v == s] for a string literal [s]. *)
Definition py_eq_str (v : pyval) (s : string) : bool :=
  match v with
  | PStr s' => String.eqb s' s
  | _ => false
  end.

(** A [str] is kept as its UTF-8 text, so that a character is a lead byte
    followed by its continuation bytes (those of the form 10xxxxxx). *)
Definition is_continuation (c : ascii) : bool :=
  (128 <=? nat_of_ascii c)%nat && (nat_of_ascii c <? 192)%nat.

(** [len(s)]: the number of characters. *)
Fixpoint utf8_length (s : string) : nat :=
  match s with
  | EmptyString => 0%nat
  | String c rest =>
      if is_continuation c then utf8_length rest else S (utf8_length rest)
  end.

(** [s[:n]]: the first [n] characters, each with all its bytes. *)
Fixpoint utf8_take (n : nat) (s : string) : string :=
  match s with
  | EmptyString => EmptyString
  | String c rest =>
      if is_continuation c then String c (utf8_take n rest)
      else
        match n with
        | O => EmptyString
        | S m => String c (utf8_take m rest)
        end
  end.

(** [v[:n]]: strings and lists are sliced, anything else raises.  A dict
    rejects the slice as a key: with [TypeError] (unhashable) before Python
    3.12, which is what is kept here, with [KeyError] from 3.12 on. *)
Definition py_slice_to (n : nat) (v : pyval) : result pyval :=
  match v with
  | PStr s => Ok (PStr (utf8_take n s))
  | PList l => Ok (PList (firstn n l))
  | _ => Raise TypeError
  end.

(** [for x in v]: a list yields its elements, a string its characters, a
    dict its keys. *)
Definition py_iter (v : pyval) : result (list pyval) :=
  match v with
  | PList l => Ok l
  | PStr s => Ok (map (fun c => PStr (String c EmptyString)) (list_ascii_of_string s))
  | PDict items => Ok (map (fun kv => PStr (fst kv)) items)
  | _ => Raise TypeError
  end.

(** ** Dates *)

(** A [datetime.date] is its proleptic Gregorian ordinal, between
    [date.min] and [date.max]; the clock counts seconds from the start of
    ordinal 0. *)
Definition date_min : Z := 1.
Definition date_max : Z := 3652059.

Definition utc_date (now : Z) : Z := now / 86400.

(** [timedelta(days=d)] *)
Definition timedelta (days : Z) : result Z :=
  if Z.abs days <=? 999999999 then Ok days else Raise OverflowError.

(** [d - delta] on dates *)
Definition date_sub (d delta : Z) : result Z :=
  let r := d - delta in
  if (date_min <=? r) && (r <=? date_max) then Ok r else Raise OverflowError.

(** The strings [date.isoformat()] and [datetime.isoformat()] return, kept
    as the value they render. *)
Inductive iso_date : Type := IsoDate (ordinal : Z).
Inductive iso_datetime : Type := IsoDateTime (seconds : Z).

Definition iso_ordinal (d : iso_date) : Z := match d with IsoDate o => o end.

(** ** Configuration ([config.api_keys]) *)

(** The module-level constants the producer imports.  [NEWS_API_KEY] is
    [None] when the variable is not set. *)
Record Config : Type := {
  NEWS_API_KEY : option string;
  KAFKA_BOOTSTRAP_SERVERS : string;
  KAFKA_NEWS_TOPIC : string;
  TRACKED_COMPANIES : list string;
  COMPANY_MAPPING : gmap string string
}.

(** ** Messages, requests and observable events *)

(** The dict built by [send_to_kafka]: its ten keys are always present, the
    values taken from the article are whatever [.get] returned. *)
Record message : Type := {
  company_symbol : string;
  company_name : string;
  source : pyval;
  author : pyval;
  title : pyval;
  description : pyval;
  url : pyval;
  published_at : pyval;
  content : pyval;
  fetched_at : iso_datetime
}.

(** The [params] dict of [fetch_news]. *)
Record request_params : Type := {
  q : string;
  from_date : iso_date;
  to_date : iso_date;
  language : string;
  sortBy : string;
  apiKey : option string;
  pageSize : Z
}.

Inductive log_line : Type :=
  | LogFetched (total : pyval) (name : string)
  | LogApiError (msg : pyval)
  | LogRequestFailed (name : string) (e : exn)
  | LogSent (title_prefix : pyval) (partition : Z)
  | LogSendFailed (e : exn)
  | LogStarting (companies : list string)
  | LogTopic (topic : string)
  | LogDaysBack (days_back : Z)
  | LogRule
  | LogFetching (name symbol : string)
  | LogBatchComplete (interval_seconds : Z)
  | LogShuttingDown
  | LogUnexpected (e : exn)
  | LogStopped
  | LogNotConfigured
  | LogHintEnvFile
  | LogHintGetKey.

(** What the process does to the outside, one event per call: a line
    printed, a call of a library that reaches the network, a sleep.  An
    event records that the call was made with these arguments, whatever its
    outcome. *)
Inductive event : Type :=
  | EvPrint (l : log_line)                                    (* print(...) *)
  | EvConnect (bootstrap_servers : string)                    (* KafkaProducer(...) *)
  | EvHttpGet (base_url : string) (params : request_params)   (* requests.get(...) *)
  | EvSend (topic : string) (key : string) (value : message)  (* producer.send(...) *)
  | EvSleep (seconds : Z)                                     (* time.sleep(...) *)
  | EvFlush                                                   (* producer.flush() *)
  | EvClose.                                                  (* producer.close() *)

(** ** The outside world *)

Record response : Type := {
  status_code : Z;
  body : option pyval        (* the parsed body, [None] when it is not JSON *)
}.

Inductive http_outcome : Type :=
  | HttpRaises (e : exn)
  | HttpResponds (r : response).

Record record_metadata : Type := { partition : Z }.

(** [producer.send] either raises or returns a future, which
    [future.get(timeout=10)] resolves to the acknowledgment or to an
    exception. *)
Inductive send_outcome : Type :=
  | SendRaises (e : exn)
  | SendReturns (future : result record_metadata).

(** The answers of the world to the n-th call of each kind; [interrupted n]
    tells whether the interrupt signal arrives during the n-th sleep. *)
Record Env : Type := {
  now_at : nat -> Z;
  http_at : nat -> http_outcome;
  send_at : nat -> send_outcome;
  interrupted : nat -> bool;
  connect : option exn       (* KafkaProducer(...): [Some e] when it raises *)
}.

(** How many calls of each kind were made so far. *)
Record world : Type := {
  k_now : nat;
  k_http : nat;
  k_send : nat;
  k_sleep : nat
}.

Definition world0 : world := {| k_now := 0; k_http := 0; k_send := 0; k_sleep := 0 |}.

Definition tick_now (w : world) : world :=
  {| k_now := S (k_now w); k_http := k_http w; k_send := k_send w; k_sleep := k_sleep w |}.
Definition tick_http (w : world) : world :=
  {| k_now := k_now w; k_http := S (k_http w); k_send := k_send w; k_sleep := k_sleep w |}.
Definition tick_send (w : world) : world :=
  {| k_now := k_now w; k_http := k_http w; k_send := S (k_send w); k_sleep := k_sleep w |}.
Definition tick_sleep (w : world) : world :=
  {| k_now := k_now w; k_http := k_http w; k_send := k_send w; k_sleep := S (k_sleep w) |}.

(** ** The monad: state, exceptions and a trace of events *)

Definition M (A : Type) : Type := world -> result A * world * list event.

Definition ret {A} (a : A) : M A := fun w => (Ok a, w, []).

Definition raise {A} (e : exn) : M A := fun w => (Raise e, w, []).

Definition bind {A B} (m : M A) (f : A -> M B) : M B :=
  fun w =>
    match m w with
    | (Ok a, w1, t1) => let '(r, w2, t2) := f a w1 in (r, w2, t1 ++ t2)
    | (Raise e, w1, t1) => (Raise e, w1, t1)
    end.

Notation "x <- m ;; k" := (bind m (fun x => k))
  (at level 100, m at next level, right associativity).
Notation "m ;;; k" := (bind m (fun _ => k))
  (at level 100, right associativity).

Definition lift {A} (r : result A) : M A := fun w => (r, w, []).

Definition emit (ev : event) : M unit := fun w => (Ok tt, w, [ev]).

Definition print (l : log_line) : M unit := emit (EvPrint l).

(** [try: m except <classes accepted by handler>: ...]; a handler that
    answers [None] does not match and the exception propagates. *)
Definition try_except {A} (m : M A) (handler : exn -> option (M A)) : M A :=
  fun w =>
    match m w with
    | (Ok a, w1, t1) => (Ok a, w1, t1)
    | (Raise e, w1, t1) =>
        match handler e with
        | Some h => let '(r, w2, t2) := h w1 in (r, w2, t1 ++ t2)
        | None => (Raise e, w1, t1)
        end
    end.

(** [for x in l: body(x)] *)
Fixpoint for_each {A} (l : list A) (body : A -> M unit) : M unit :=
  match l with
  | [] => ret tt
  | x :: rest => body x ;;; for_each rest body
  end.

Definition out_result {A} (o : result A * world * list event) : result A := fst (fst o).
Definition out_world {A} (o : result A * world * list event) : world := snd (fst o).
Definition out_trace {A} (o : result A * world * list event) : list event := snd o.

Definition attempt {A} (m : M A) : M (result A) :=
  fun w => let '(r, w1, t1) := m w in (Ok r, w1, t1).

(** ** The program *)

Section Producer.

Context (cfg : Config) (env : Env).

(** *** Calls into the libraries *)

Definition utcnow : M Z :=
  fun w =>
    (Ok (now_at env (k_now w)),
     tick_now w,
     []).

Definition requests_get (base_url : string) (params : request_params) : M response :=
  fun w =>
    (match http_at env (k_http w) with
     | HttpRaises e => Raise e
     | HttpResponds r => Ok r
     end,
     tick_http w,
     [EvHttpGet base_url params]).

(** [response.raise_for_status()] raises on 4xx and 5xx. *)
Definition raise_for_status (r : response) : result unit :=
  if (400 <=? status_code r) && (status_code r <? 600)
  then Raise (RequestException (HTTPError (status_code r)))
  else Ok tt.

Definition response_json (r : response) : result pyval :=
  match body r with
  | Some v => Ok v
  | None => Raise (RequestException JSONDecodeError)
  end.

Definition producer_send (topic key : string) (value : message)
  : M (result record_metadata) :=
  fun w =>
    (match send_at env (k_send w) with
     | SendRaises e => Raise e
     | SendReturns future => Ok future
     end,
     tick_send w,
     [EvSend topic key value]).

Definition future_get (future : result record_metadata) : M record_metadata :=
  lift future.

(** [time.sleep(seconds)] rejects a negative length with [ValueError] and
    a length beyond what its nanosecond clock holds (more than 9223372036
    seconds) with [OverflowError]; otherwise it sleeps, unless the interrupt
    signal arrives. *)
Definition sleep (seconds : Z) : M unit :=
  fun w =>
    if seconds <? 0 then (Raise ValueError, w, [])
    else if 9223372036 <? seconds then (Raise OverflowError, w, [])
    else
      (if interrupted env (k_sleep w) then Raise KeyboardInterrupt else Ok tt,
       tick_sleep w,
       [EvSleep seconds]).

Definition producer_flush : M unit := emit EvFlush.
Definition producer_close : M unit := emit EvClose.

(** *** class NewsProducer *)

Record NewsProducer : Type := {
  api_key : option string;
  base_url : string
}.

(** [__init__]: the Kafka producer connects to the brokers. *)
Definition init : M NewsProducer :=
  emit (EvConnect (KAFKA_BOOTSTRAP_SERVERS cfg)) ;;;
  match connect env with
  | Some e => raise e
  | None =>
      ret {| api_key := NEWS_API_KEY cfg;
             base_url := "https://newsapi.org/v2/everything" |}
  end.

Definition fetch_news (self : NewsProducer) (company_symbol company_name : string)
    (from_date to_date : iso_date) : M pyval :=
  let params :=
    {| q := company_name;
       from_date := from_date;
       to_date := to_date;
       language := "en";
       sortBy := "publishedAt";
       apiKey := api_key self;
       pageSize := 100 |} in
  try_except
    (response <- requests_get (base_url self) params ;;
     lift (raise_for_status response) ;;;
     data <- lift (response_json response) ;;
     status <- lift (py_getitem data "status") ;;
     if py_eq_str status "ok" then
       total <- lift (py_getitem data "totalResults") ;;
       print (LogFetched total company_name) ;;;
       lift (py_getitem data "articles")
     else
       msg <- lift (py_get data "message" (PStr "Unknown error")) ;;
       print (LogApiError msg) ;;;
       ret (PList []))
    (fun e =>
       if is_RequestException e
       then Some (print (LogRequestFailed company_name e) ;;; ret (PList []))
       else None).

(** [COMPANY_MAPPING.get(company_symbol, company_symbol)] *)
Definition mapped_name (company_symbol : string) : string :=
  default company_symbol (COMPANY_MAPPING cfg !! company_symbol).

(** The message construction of [send_to_kafka] (the dict literal, its
    values evaluated in order). *)
Definition build_message (company_symbol : string) (article : pyval) : M message :=
  let name := mapped_name company_symbol in
  source_obj <- lift (py_get article "source" (PDict [])) ;;
  source <- lift (py_get source_obj "name" (PStr "Unknown")) ;;
  author <- lift (py_get article "author" (PStr "Unknown")) ;;
  title <- lift (py_get article "title" (PStr "")) ;;
  description <- lift (py_get article "description" (PStr "")) ;;
  url <- lift (py_get article "url" (PStr "")) ;;
  published_at <- lift (py_get article "publishedAt" (PStr "")) ;;
  content <- lift (py_get article "content" (PStr "")) ;;
  now <- utcnow ;;
  ret {| company_symbol := company_symbol;
         company_name := name;
         source := source;
         author := author;
         title := title;
         description := description;
         url := url;
         published_at := published_at;
         content := content;
         fetched_at := IsoDateTime now |}.

Definition send_to_kafka (company_symbol : string) (article : pyval) : M unit :=
  message <- build_message company_symbol article ;;
  try_except
    (future <- producer_send (KAFKA_NEWS_TOPIC cfg) company_symbol message ;;
     record_metadata <- future_get future ;;
     prefix <- lift (py_slice_to 60 (title message)) ;;
     print (LogSent prefix (partition record_metadata)))
    (fun e =>
       if is_KafkaError e then Some (print (LogSendFailed e)) else None).

(** *** run *)

(** The body of [for company_symbol in TRACKED_COMPANIES]. *)
Definition process_company (self : NewsProducer) (from_date to_date : iso_date)
    (company_symbol : string) : M unit :=
  let company_name := mapped_name company_symbol in
  print (LogFetching company_name company_symbol) ;;;
  articles <- fetch_news self company_symbol company_name from_date to_date ;;
  items <- lift (py_iter articles) ;;
  for_each items (send_to_kafka company_symbol) ;;;
  sleep 2.

(** The body of the [try] block of the main loop: one cycle. *)
Definition cycle (self : NewsProducer) (days_back interval_seconds : Z) : M unit :=
  now <- utcnow ;;
  let to_date := utc_date now in
  delta <- lift (timedelta days_back) ;;
  from_date <- lift (date_sub to_date delta) ;;
  for_each (TRACKED_COMPANIES cfg)
    (process_company self (IsoDate from_date) (IsoDate to_date)) ;;;
  print LogRule ;;;
  print (LogBatchComplete interval_seconds) ;;;
  print LogRule ;;;
  sleep interval_seconds.

(** How the loop stands after the cycles the fuel allowed. *)
Inductive loop_exit : Type :=
  | StillRunning           (* the fuel ran out, the loop goes on *)
  | Broke.                 (* [break] in [except KeyboardInterrupt] *)

(** [while True: try: <cycle> except KeyboardInterrupt: ... except
    Exception as e: ...]; the fuel counts cycles. *)
Fixpoint while_true (fuel : nat) (self : NewsProducer)
    (days_back interval_seconds : Z) : M loop_exit :=
  match fuel with
  | O => ret StillRunning
  | S n =>
      r <- attempt (cycle self days_back interval_seconds) ;;
      match r with
      | Ok _ => while_true n self days_back interval_seconds
      | Raise e =>
          if is_KeyboardInterrupt e then
            print LogShuttingDown ;;;
            ret Broke
          else if is_Exception e then
            print (LogUnexpected e) ;;;
            sleep 60 ;;;
            while_true n self days_back interval_seconds
          else raise e
      end
  end.

Definition run (fuel : nat) (self : NewsProducer)
    (days_back interval_seconds : Z) : M loop_exit :=
  print (LogStarting (TRACKED_COMPANIES cfg)) ;;;
  print (LogTopic (KAFKA_NEWS_TOPIC cfg)) ;;;
  print (LogDaysBack days_back) ;;;
  print LogRule ;;;
  st <- while_true fuel self days_back interval_seconds ;;
  match st with
  | StillRunning => ret StillRunning
  | Broke =>
      producer_flush ;;;
      producer_close ;;;
      print LogStopped ;;;
      ret Broke
  end.

(** *** __main__ *)

Inductive process_state : Type :=
  | Alive                  (* still looping when the fuel ran out *)
  | Exited (status : Z)    (* [sys.exit(status)], or the end of the script *)
  | Crashed (e : exn).     (* an exception nothing caught: the interpreter
                              prints the traceback and ends with a status
                              that is not 0 *)

(** [not NEWS_API_KEY or NEWS_API_KEY == 'your_newsapi_key_here'] *)
Definition key_not_configured : bool :=
  match NEWS_API_KEY cfg with
  | None => true
  | Some k => String.eqb k "" || String.eqb k "your_newsapi_key_here"
  end.

Definition main (fuel : nat) : process_state * list event :=
  if key_not_configured then
    (Exited 1,
     [EvPrint LogNotConfigured; EvPrint LogHintEnvFile; EvPrint LogHintGetKey])
  else
    match (producer <- init ;; run fuel producer 7 3600) world0 with
    | (Ok StillRunning, _, t) => (Alive, t)
    | (Ok Broke, _, t) => (Exited 0, t)
    | (Raise e, _, t) => (Crashed e, t)
    end.

End Producer.

(** ** A unary program logic over [M] *)

Definition result_sat {A} (Q : A -> Prop) (E : exn -> Prop) (r : result A) : Prop :=
  match r with
  | Ok a => Q a
  | Raise e => E e
  end.

(** [sat P Q E m]: from any world, every event [m] emits satisfies [P], a
    value it returns satisfies [Q] and an exception it raises satisfies [E]. *)
Definition sat {A} (P : event -> Prop) (Q : A -> Prop) (E : exn -> Prop) (m : M A) : Prop :=
  forall w, Forall P (out_trace (m w)) /\ result_sat Q E (out_result (m w)).

Definition any {A} : A -> Prop := fun _ => True.

(** ** Properties of events and environments *)

(** A publish is keyed by a tracked symbol, which is also the message's
    [company_symbol]; the display name travels in the value only. *)
Definition keyed_by_symbol (cfg : Config) (ev : event) : Prop :=
  match ev with
  | EvSend topic key value =>
      topic = KAFKA_NEWS_TOPIC cfg /\
      In key (TRACKED_COMPANIES cfg) /\
      company_symbol value = key /\
      company_name value = mapped_name cfg key
  | _ => True
  end.

(** The date window of a request ends on [today] and spans [days_back] days. *)
Definition window_of (today days_back : Z) (ev : event) : Prop :=
  match ev with
  | EvHttpGet _ params =>
      to_date params = IsoDate today /\
      iso_ordinal (to_date params) - iso_ordinal (from_date params) = days_back
  | _ => True
  end.

Definition window_spans (days_back : Z) (ev : event) : Prop :=
  match ev with
  | EvHttpGet _ params =>
      iso_ordinal (to_date params) - iso_ordinal (from_date params) = days_back
  | _ => True
  end.

(** The world never delivers the interrupt signal: no sleep is interrupted
    and no library call raises [KeyboardInterrupt]. *)
Definition no_interrupt (env : Env) : Prop :=
  (forall k, interrupted env k = false) /\
  (forall k, http_at env k <> HttpRaises KeyboardInterrupt) /\
  (forall k, send_at env k <> SendRaises KeyboardInterrupt) /\
  (forall k, send_at env k <> SendReturns (Raise KeyboardInterrupt)).

Definition not_interrupt (e : exn) : Prop := e <> KeyboardInterrupt.

Definition is_network_event (ev : event) : bool :=
  match ev with
  | EvConnect _ | EvHttpGet _ _ | EvSend _ _ _ | EvFlush | EvClose => true
  | EvPrint _ | EvSleep _ => false
  end.

(** ** Publish failures

    How the failures of a publish reach [send_to_kafka].  The producer waits
    for the topic's metadata inside [send] and raises [KafkaTimeoutError]
    when no broker answers; an acknowledgment that does not arrive in time
    makes [future.get(timeout=10)] raise [KafkaTimeoutError]; the serializers
    of [__init__] run inside [send], which lets their exception through:
    [json.dumps] raises [TypeError]. *)
Inductive publish_failure : Type :=
  | BrokerUnreachable
  | AckTimeout
  | SerializationError.

Definition failure_outcome (f : publish_failure) : send_outcome :=
  match f with
  | BrokerUnreachable => SendRaises (KafkaError KafkaTimeoutError)
  | AckTimeout => SendReturns (Raise (KafkaError KafkaTimeoutError))
  | SerializationError => SendRaises TypeError
  end.

(** ** Sample configuration, articles and worlds *)

Definition sample_cfg : Config :=
  {| NEWS_API_KEY := Some "0123456789abcdef";
     KAFKA_BOOTSTRAP_SERVERS := "localhost:9092";
     KAFKA_NEWS_TOPIC := "news-articles";
     TRACKED_COMPANIES := ["AAPL"; "XYZ"];
     COMPANY_MAPPING := {[ "AAPL" := "Apple" ]} |}.

Definition sample_self : NewsProducer :=
  {| api_key := Some "0123456789abcdef";
     base_url := "https://newsapi.org/v2/everything" |}.

Definition article_with (author title : pyval) : pyval :=
  PDict [("source", PDict [("id", PNone); ("name", PStr "Reuters")]);
         ("author", author);
         ("title", title);
         ("description", PStr "Quarterly results");
         ("url", PStr "https://example.org/a");
         ("publishedAt", PStr "2024-05-01T10:00:00Z");
         ("content", PStr "Text")].

Definition sample_article : pyval := article_with (PStr "A. Writer") (PStr "Apple ships").

(** An article as the API sends it when it knows no author. *)
Definition null_author_article : pyval := article_with PNone (PStr "Apple ships").

Definition null_title_article : pyval := article_with (PStr "A. Writer") PNone.

Definition null_source_article : pyval :=
  PDict [("source", PNone); ("author", PStr "A. Writer"); ("title", PStr "Apple ships")].

(** The message of [sample_article] for a company, built at second [now]. *)
Definition sample_message (sym name : string) (now : Z) : message :=
  {| company_symbol := sym;
     company_name := name;
     source := PStr "Reuters";
     author := PStr "A. Writer";
     title := PStr "Apple ships";
     description := PStr "Quarterly results";
     url := PStr "https://example.org/a";
     published_at := PStr "2024-05-01T10:00:00Z";
     content := PStr "Text";
     fetched_at := IsoDateTime now |}.

Definition ok_body (articles : list pyval) : pyval :=
  PDict [("status", PStr "ok");
         ("totalResults", PInt (Z.of_nat (length articles)));
         ("articles", PList articles)].

Definition responds (status : Z) (json : option pyval) : http_outcome :=
  HttpResponds {| status_code := status; body := json |}.

(** A world in which every request returns [sample_article], every publish
    is acknowledged and nobody interrupts; the clock starts on day 739000. *)
Definition sample_env : Env :=
  {| now_at := fun k => 739000 * 86400 + Z.of_nat k;
     http_at := fun _ => responds 200 (Some (ok_body [sample_article]));
     send_at := fun _ => SendReturns (Ok {| partition := 0 |});
     interrupted := fun _ => false;
     connect := None |}.

Definition with_http (http : nat -> http_outcome) (env : Env) : Env :=
  {| now_at := now_at env; http_at := http; send_at := send_at env;
     interrupted := interrupted env; connect := connect env |}.

Definition with_send (send : nat -> send_outcome) (env : Env) : Env :=
  {| now_at := now_at env; http_at := http_at env; send_at := send;
     interrupted := interrupted env; connect := connect env |}.

Definition with_interrupt (intr : nat -> bool) (env : Env) : Env :=
  {| now_at := now_at env; http_at := http_at env; send_at := send_at env;
     interrupted := intr; connect := connect env |}.

Definition with_mapping (mapping : gmap string string) (cfg : Config) : Config :=
  {| NEWS_API_KEY := NEWS_API_KEY cfg;
     KAFKA_BOOTSTRAP_SERVERS := KAFKA_BOOTSTRAP_SERVERS cfg;
     KAFKA_NEWS_TOPIC := KAFKA_NEWS_TOPIC cfg;
     TRACKED_COMPANIES := TRACKED_COMPANIES cfg;
     COMPANY_MAPPING := mapping |}.

Definition with_key (key : option string) (cfg : Config) : Config :=
  {| NEWS_API_KEY := key;
     KAFKA_BOOTSTRAP_SERVERS := KAFKA_BOOTSTRAP_SERVERS cfg;
     KAFKA_NEWS_TOPIC := KAFKA_NEWS_TOPIC cfg;
     TRACKED_COMPANIES := TRACKED_COMPANIES cfg;
     COMPANY_MAPPING := COMPANY_MAPPING cfg |}.

(** ** Fetch outcomes *)

(** The [params] dict [fetch_news] sends. *)
Definition params_of (self : NewsProducer) (company_name : string)
    (from_d to_d : iso_date) : request_params :=
  {| q := company_name;
     from_date := from_d;
     to_date := to_d;
     language := "en";
     sortBy := "publishedAt";
     apiKey := api_key self;
     pageSize := 100 |}.

(** The exception of a fetch that fails at the HTTP level: a network-level
    failure raised by [requests.get], or the [HTTPError] that
    [raise_for_status] raises on a 4xx or 5xx response. *)
Definition request_error (o : http_outcome) : option exn :=
  match o with
  | HttpRaises (RequestException re) => Some (RequestException re)
  | HttpRaises _ => None
  | HttpResponds r =>
      if (400 <=? status_code r) && (status_code r <? 600)
      then Some (RequestException (HTTPError (status_code r)))
      else None
  end.

(** What one company's turn prints and does when its fetch failed. *)
Definition failed_fetch_events (cfg : Config) (self : NewsProducer)
    (from_d to_d : iso_date) (sym : string) (e : exn) : list event :=
  [EvPrint (LogFetching (mapped_name cfg sym) sym);
   EvHttpGet (base_url self) (params_of self (mapped_name cfg sym) from_d to_d);
   EvPrint (LogRequestFailed (mapped_name cfg sym) e);
   EvSleep 2].

(** A world whose API answers 300 Multiple Choices with a well-formed body. *)
Definition multiple_choices_env : Env :=
  with_http (fun _ => responds 300 (Some (ok_body [sample_article]))) sample_env.

(** A world whose API answers 200 with a body that has no status marker. *)
Definition no_status_env : Env :=
  with_http (fun _ => responds 200 (Some (PDict [("message", PStr "maintenance")])))
    sample_env.

(** A world in which every request fails and a day passes from one reading
    of the clock to the next. *)
Definition daily_env : Env :=
  {| now_at := fun k => (739000 + Z.of_nat k) * 86400;
     http_at := fun _ => HttpRaises (RequestException ConnectionError);
     send_at := fun _ => SendReturns (Ok {| partition := 0 |});
     interrupted := fun _ => false;
     connect := None |}.

(** ** Worlds for the shutdown paths *)

(** The API answers without a status marker and the interrupt arrives
    during the first sleep, which is the cooldown of the loop's handler. *)
Definition cooldown_interrupt_env : Env :=
  with_interrupt (fun k => Nat.eqb k 0) no_status_env.

(** The interrupt arrives during the third sleep of the sample world: the
    interval sleep that ends the first cycle of two companies. *)
Definition interval_interrupt_env : Env :=
  with_interrupt (fun k => Nat.eqb k 2) sample_env.

Definition is_flush (ev : event) : bool :=
  match ev with EvFlush => true | _ => false end.

Definition is_close (ev : event) : bool :=
  match ev with EvClose => true | _ => false end.

(** The name under which a company is searched and published. *)
Definition named (name : string) (ev : event) : Prop :=
  match ev with
  | EvHttpGet _ params => q params = name
  | EvSend _ _ value => company_name value = name
  | _ => True
  end.

(** ** Projections of a trace *)

(** The requests, the publishes and the sleeps of a trace, in order. *)
Definition requests_of (t : list event) : list (string * request_params) :=
  flat_map (fun ev => match ev with
                      | EvHttpGet u params => [(u, params)]
                      | _ => []
                      end) t.

Definition publishes_of (t : list event) : list (string * string * message) :=
  flat_map (fun ev => match ev with
                      | EvSend topic key value => [(topic, key, value)]
                      | _ => []
                      end) t.

Definition sleeps_of (t : list event) : list Z :=
  flat_map (fun ev => match ev with
                      | EvSleep seconds => [seconds]
                      | _ => []
                      end) t.

(** ** Articles and what becomes of them *)

(** The articles whose message can be built: dicts whose [source], when
    present, is a dict. *)
Definition enrichable (article : pyval) : bool :=
  match article with
  | PDict items =>
      match dict_lookup "source" items with
      | None | Some (PDict _) => true
      | Some _ => false
      end
  | _ => false
  end.

Definition article_items (article : pyval) : list (string * pyval) :=
  match article with
  | PDict items => items
  | _ => []
  end.

Definition source_name (items : list (string * pyval)) : pyval :=
  match dict_lookup "source" items with
  | Some (PDict src) => default (PStr "Unknown") (dict_lookup "name" src)
  | _ => PStr "Unknown"
  end.

(** The message of an enrichable article with these items, built at [now]. *)
Definition enriched (cfg : Config) (sym : string) (items : list (string * pyval))
    (now : Z) : message :=
  {| company_symbol := sym;
     company_name := mapped_name cfg sym;
     source := source_name items;
     author := default (PStr "Unknown") (dict_lookup "author" items);
     title := default (PStr "") (dict_lookup "title" items);
     description := default (PStr "") (dict_lookup "description" items);
     url := default (PStr "") (dict_lookup "url" items);
     published_at := default (PStr "") (dict_lookup "publishedAt" items);
     content := default (PStr "") (dict_lookup "content" items);
     fetched_at := IsoDateTime now |}.

(** The values [v[:60]] accepts. *)
Definition sliceable (v : pyval) : bool :=
  match v with
  | PStr _ | PList _ => true
  | _ => false
  end.

(** The articles that go through [send_to_kafka] when the broker raises
    nothing but a [KafkaError]. *)
Definition publishable (article : pyval) : bool :=
  enrichable article &&
  sliceable (default (PStr "") (dict_lookup "title" (article_items article))).

(** A publish that is acknowledged or fails with a [KafkaError]. *)
Definition benign (o : send_outcome) : bool :=
  match o with
  | SendReturns (Ok _) => true
  | SendReturns (Raise e) => is_KafkaError e
  | SendRaises e => is_KafkaError e
  end.

(** One request per tracked company, in the configured order. *)
Definition tracked_requests (cfg : Config) (self : NewsProducer)
    (from_d to_d : iso_date) : list (string * request_params) :=
  map (fun sym => (base_url self, params_of self (mapped_name cfg sym) from_d to_d))
      (TRACKED_COMPANIES cfg).

Definition is_print (ev : event) : bool :=
  match ev with EvPrint _ => true | _ => false end.

(** The publishes of the articles of one company, the first one built at the
    [k]-th reading of the clock. *)
Fixpoint enrich_all (cfg : Config) (env : Env) (sym : string) (articles : list pyval)
    (k : nat) : list (string * string * message) :=
  match articles with
  | [] => []
  | article :: rest =>
      (KAFKA_NEWS_TOPIC cfg, sym, enriched cfg sym (article_items article) (now_at env k))
        :: enrich_all cfg env sym rest (S k)
  end.

(** A request as the configuration prescribes it: to the news endpoint, with
    the configured key and the fixed search options, for a tracked company
    and a window of [days_back] days. *)
Definition configured_request (cfg : Config) (days_back : Z) (ev : event) : Prop :=
  match ev with
  | EvHttpGet u params =>
      u = "https://newsapi.org/v2/everything" /\
      apiKey params = NEWS_API_KEY cfg /\
      language params = "en" /\
      sortBy params = "publishedAt" /\
      pageSize params = 100 /\
      (exists sym, In sym (TRACKED_COMPANIES cfg) /\ q params = mapped_name cfg sym) /\
      iso_ordinal (to_date params) - iso_ordinal (from_date params) = days_back
  | _ => True
  end.

(** Neither a flush nor a close of the producer. *)
Definition no_cleanup (ev : event) : Prop := is_flush ev = false /\ is_close ev = false.

(** A world whose brokers do not answer when the producer is constructed. *)
Definition unreachable_broker_env : Env :=
  {| now_at := now_at sample_env; http_at := http_at sample_env;
     send_at := send_at sample_env; interrupted := interrupted sample_env;
     connect := Some (KafkaError NoBrokersAvailable) |}.

(** A world in which the interrupt arrives during the first request. *)
Definition fetch_interrupt_env : Env :=
  with_http (fun _ => HttpRaises KeyboardInterrupt) sample_env.

Definition is_dict (v : pyval) : bool :=
  match v with PDict _ => true | _ => false end.

(** A world whose API answers 200 with an error status and a message. *)
Definition error_status_env : Env :=
  with_http (fun _ => responds 200 (Some (PDict [("status", PStr "error");
                                                  ("message", PStr "rate limited")])))
    sample_env.

(** A world whose API answers the first request without a status marker
    and every later one like the sample world. *)
Definition transient_error_env : Env :=
  with_http (fun k => match k with
                      | O => responds 200 (Some (PDict [("message", PStr "maintenance")]))
                      | S _ => responds 200 (Some (ok_body [sample_article]))
                      end)
    sample_env.

(** ** Rules of the logic *)

Section Rules.

Context {A : Type} (P : event -> Prop).

Lemma sat_ret (Q : A -> Prop) E (a : A) : Q a -> sat P Q E (ret a).
Proof. intros Ha w. split; [constructor | exact Ha]. Qed.

Lemma sat_raise (Q : A -> Prop) (E : exn -> Prop) e : E e -> sat P Q E (raise e).
Proof. intros He w. split; [constructor | exact He]. Qed.

Lemma sat_lift (Q : A -> Prop) E (r : result A) : result_sat Q E r -> sat P Q E (lift r).
Proof. intros Hr w. split; [constructor | exact Hr]. Qed.

Lemma sat_weaken (Q Q' : A -> Prop) (E E' : exn -> Prop) (m : M A) :
  sat P Q E m -> (forall a, Q a -> Q' a) -> (forall e, E e -> E' e) -> sat P Q' E' m.
Proof.
  intros Hm HQ HE w. destruct (Hm w) as [Ht Hr]. split; [exact Ht |].
  destruct (out_result (m w)); simpl in *; auto.
Qed.

Lemma sat_bind {B} (Q1 : A -> Prop) (Q : B -> Prop) E (m : M A) (f : A -> M B) :
  sat P Q1 E m -> (forall a, Q1 a -> sat P Q E (f a)) -> sat P Q E (bind m f).
Proof.
  intros Hm Hf w. unfold bind. specialize (Hm w).
  destruct (m w) as [[r w1] t1]. destruct r as [a | e]; simpl in Hm.
  - destruct Hm as [Ht Ha]. specialize (Hf a Ha w1).
    destruct (f a w1) as [[r2 w2] t2]. simpl in *.
    destruct Hf as [Ht2 Hr2]. split; [apply Forall_app; split; assumption | exact Hr2].
  - exact Hm.
Qed.

Lemma sat_try_except (Q : A -> Prop) (E1 E : exn -> Prop) (m : M A) handler :
  sat P Q E1 m ->
  (forall e, E1 e -> match handler e with
                     | Some h => sat P Q E h
                     | None => E e
                     end) ->
  sat P Q E (try_except m handler).
Proof.
  intros Hm Hh w. unfold try_except. specialize (Hm w).
  destruct (m w) as [[r w1] t1]. destruct r as [a | e]; simpl in Hm.
  - exact Hm.
  - destruct Hm as [Ht He]. specialize (Hh e He).
    destruct (handler e) as [h |].
    + specialize (Hh w1). destruct (h w1) as [[r2 w2] t2]. simpl in *.
      destruct Hh as [Ht2 Hr2]. split; [apply Forall_app; split; assumption | exact Hr2].
    + split; assumption.
Qed.

Lemma sat_attempt (Q : A -> Prop) (E1 E : exn -> Prop) (m : M A) :
  sat P Q E1 m -> sat P (result_sat Q E1) E (attempt m).
Proof.
  intros Hm w. unfold attempt. specialize (Hm w).
  destruct (m w) as [[r w1] t1]. exact Hm.
Qed.

End Rules.

Lemma sat_emit P (Q : unit -> Prop) E ev : P ev -> Q tt -> sat P Q E (emit ev).
Proof. intros Hev Hq w. split; [repeat constructor; exact Hev | exact Hq]. Qed.

Lemma sat_print P (Q : unit -> Prop) E l : P (EvPrint l) -> Q tt -> sat P Q E (print l).
Proof. apply sat_emit. Qed.

Lemma sat_for_each {A} P E (l : list A) (body : A -> M unit) :
  (forall x, In x l -> sat P any E (body x)) -> sat P any E (for_each l body).
Proof.
  induction l as [| x rest IH]; intros Hbody; simpl.
  - apply sat_ret. exact I.
  - apply sat_bind with (Q1 := any).
    + apply Hbody. left. reflexivity.
    + intros _ _. apply IH. intros y Hy. apply Hbody. right. exact Hy.
Qed.

(** ** The operations on Python values never raise the interrupt *)

Lemma py_get_sat d key dflt : result_sat any not_interrupt (py_get d key dflt).
Proof.
  unfold py_get. destruct d; simpl; try discriminate.
  destruct (dict_lookup key items); exact I.
Qed.

Lemma py_getitem_sat d key : result_sat any not_interrupt (py_getitem d key).
Proof.
  unfold py_getitem. destruct d; simpl; try discriminate.
  destruct (dict_lookup key items); simpl; [exact I | discriminate].
Qed.

Lemma py_slice_to_sat n v : result_sat any not_interrupt (py_slice_to n v).
Proof. destruct v; simpl; first [exact I | discriminate]. Qed.

Lemma py_iter_sat v : result_sat any not_interrupt (py_iter v).
Proof. destruct v; simpl; first [exact I | discriminate]. Qed.

Lemma raise_for_status_sat r : result_sat any not_interrupt (raise_for_status r).
Proof.
  unfold raise_for_status.
  destruct ((400 <=? status_code r) && (status_code r <? 600))%bool; simpl;
    [discriminate | exact I].
Qed.

Lemma response_json_sat r : result_sat any not_interrupt (response_json r).
Proof. unfold response_json. destruct (body r); simpl; [exact I | discriminate]. Qed.

Lemma timedelta_sat d : result_sat (fun r => r = d) not_interrupt (timedelta d).
Proof.
  unfold timedelta. destruct (Z.abs d <=? 999999999); simpl; [reflexivity | discriminate].
Qed.

Lemma date_sub_sat d delta :
  result_sat (fun r => r = d - delta) not_interrupt (date_sub d delta).
Proof.
  unfold date_sub.
  destruct ((date_min <=? d - delta) && (d - delta <=? date_max))%bool; simpl;
    [reflexivity | discriminate].
Qed.

Lemma result_sat_weaken {A} (Q Q' : A -> Prop) (E E' : exn -> Prop) r :
  result_sat Q E r -> (forall a, Q a -> Q' a) -> (forall e, E e -> E' e) ->
  result_sat Q' E' r.
Proof. destruct r; simpl; auto. Qed.

(** ** Invariants of the producer's functions

    [P] is a property of events that holds of log lines and sleeps; [E] a
    property of exceptions that holds of every exception but the interrupt,
    and of the interrupt too unless the world never delivers it. *)

Section Invariants.

Context (cfg : Config) (env : Env).
Context (P : event -> Prop) (E : exn -> Prop).
Hypothesis P_print : forall l, P (EvPrint l).
Hypothesis P_sleep : forall s, P (EvSleep s).
Hypothesis E_error : forall e, not_interrupt e -> E e.
Hypothesis E_interrupt : E KeyboardInterrupt \/ no_interrupt env.

Lemma sat_py {A} (Q : A -> Prop) (r : result A) :
  result_sat Q not_interrupt r -> sat P Q E (lift r).
Proof.
  intros Hr. apply sat_lift. eapply result_sat_weaken; eauto.
Qed.

Lemma sat_utcnow : sat P any E (utcnow env).
Proof. intros w. split; [constructor | exact I]. Qed.

Lemma sat_requests_get url params :
  P (EvHttpGet url params) -> sat P any E (requests_get env url params).
Proof.
  intros Hp w. unfold requests_get. split; [repeat constructor; exact Hp |].
  unfold out_result. simpl. destruct (http_at env (k_http w)) as [e | r] eqn:Hk; simpl.
  - destruct e; try (apply E_error; discriminate).
    destruct E_interrupt as [He | (_ & Hhttp & _)]; [exact He |].
    exfalso. exact (Hhttp _ Hk).
  - exact I.
Qed.

Lemma sat_producer_send topic key value :
  P (EvSend topic key value) ->
  sat P (result_sat any E) E (producer_send env topic key value).
Proof.
  intros Hp w. unfold producer_send. split; [repeat constructor; exact Hp |].
  unfold out_result. simpl.
  destruct (send_at env (k_send w)) as [e | [md | e]] eqn:Hk; simpl.
  - destruct e; try (apply E_error; discriminate).
    destruct E_interrupt as [He | (_ & _ & Hsend & _)]; [exact He |].
    exfalso. exact (Hsend _ Hk).
  - exact I.
  - destruct e; try (apply E_error; discriminate).
    destruct E_interrupt as [He | (_ & _ & _ & Hget)]; [exact He |].
    exfalso. exact (Hget _ Hk).
Qed.

Lemma sat_sleep seconds : sat P any E (sleep env seconds).
Proof.
  intros w. unfold sleep. destruct (seconds <? 0).
  - split; [constructor | apply E_error; discriminate].
  - destruct (9223372036 <? seconds).
    { split; [constructor | apply E_error; discriminate]. }
    split; [repeat constructor; apply P_sleep |].
    unfold out_result. simpl. destruct (interrupted env (k_sleep w)) eqn:Hk; simpl.
    + destruct E_interrupt as [He | (Hs & _)]; [exact He |].
      rewrite Hs in Hk. discriminate.
    + exact I.
Qed.

Lemma sat_fetch_news self company_symbol company_name from_d to_d :
  (forall params, from_date params = from_d -> to_date params = to_d ->
                  q params = company_name ->
                  P (EvHttpGet (base_url self) params)) ->
  sat P any E (fetch_news env self company_symbol company_name from_d to_d).
Proof.
  intros Hget. unfold fetch_news.
  apply sat_try_except with (E1 := E).
  - apply sat_bind with (Q1 := any); [apply sat_requests_get; apply Hget; reflexivity |].
    intros response _.
    apply sat_bind with (Q1 := any); [apply sat_py, raise_for_status_sat |].
    intros _ _.
    apply sat_bind with (Q1 := any); [apply sat_py, response_json_sat |].
    intros data _.
    apply sat_bind with (Q1 := any); [apply sat_py, py_getitem_sat |].
    intros status _. destruct (py_eq_str status "ok").
    + apply sat_bind with (Q1 := any); [apply sat_py, py_getitem_sat |].
      intros total _.
      apply sat_bind with (Q1 := any); [apply sat_print; [apply P_print | exact I] |].
      intros _ _. apply sat_py, py_getitem_sat.
    + apply sat_bind with (Q1 := any); [apply sat_py, py_get_sat |].
      intros msg _.
      apply sat_bind with (Q1 := any); [apply sat_print; [apply P_print | exact I] |].
      intros _ _. apply sat_ret. exact I.
  - intros e He. destruct (is_RequestException e); [| exact He].
    apply sat_bind with (Q1 := any); [apply sat_print; [apply P_print | exact I] |].
    intros _ _. apply sat_ret. exact I.
Qed.

Lemma sat_build_message sym article :
  sat P (fun msg => sym = company_symbol msg /\
                    company_name msg = mapped_name cfg sym)
      E (build_message cfg env sym article).
Proof.
  unfold build_message.
  repeat (apply sat_bind with (Q1 := any); [apply sat_py, py_get_sat | intros ? _]).
  apply sat_bind with (Q1 := any); [apply sat_utcnow |].
  intros now _. apply sat_ret. split; reflexivity.
Qed.

Lemma sat_send_to_kafka sym article :
  (forall msg, company_symbol msg = sym ->
               company_name msg = mapped_name cfg sym ->
               P (EvSend (KAFKA_NEWS_TOPIC cfg) sym msg)) ->
  sat P any E (send_to_kafka cfg env sym article).
Proof.
  intros Hsend. unfold send_to_kafka.
  eapply sat_bind; [apply sat_build_message |].
  intros msg [Hsym Hname]. apply sat_try_except with (E1 := E).
  - eapply sat_bind; [apply sat_producer_send; apply Hsend; auto |].
    intros future Hfut.
    apply sat_bind with (Q1 := any); [apply sat_lift; exact Hfut |].
    intros md _.
    apply sat_bind with (Q1 := any); [apply sat_py, py_slice_to_sat |].
    intros prefix _. apply sat_print; [apply P_print | exact I].
  - intros e He. destruct (is_KafkaError e); [| exact He].
    apply sat_print; [apply P_print | exact I].
Qed.

Lemma sat_process_company self from_d to_d sym :
  (forall params, from_date params = from_d -> to_date params = to_d ->
                  q params = mapped_name cfg sym ->
                  P (EvHttpGet (base_url self) params)) ->
  (forall msg, company_symbol msg = sym ->
               company_name msg = mapped_name cfg sym ->
               P (EvSend (KAFKA_NEWS_TOPIC cfg) sym msg)) ->
  sat P any E (process_company cfg env self from_d to_d sym).
Proof.
  intros Hget Hsend. unfold process_company.
  apply sat_bind with (Q1 := any); [apply sat_print; [apply P_print | exact I] |].
  intros _ _.
  apply sat_bind with (Q1 := any); [apply sat_fetch_news; exact Hget |].
  intros articles _.
  apply sat_bind with (Q1 := any); [apply sat_py, py_iter_sat |].
  intros items _.
  apply sat_bind with (Q1 := any).
  - apply sat_for_each. intros article _. apply sat_send_to_kafka. exact Hsend.
  - intros _ _. apply sat_sleep.
Qed.

Section Loop.

Context (self : NewsProducer) (days_back interval_seconds : Z).
Hypothesis P_get : forall today params,
  to_date params = IsoDate today ->
  from_date params = IsoDate (today - days_back) ->
  P (EvHttpGet (base_url self) params).
Hypothesis P_send : forall sym msg,
  In sym (TRACKED_COMPANIES cfg) ->
  company_symbol msg = sym ->
  company_name msg = mapped_name cfg sym ->
  P (EvSend (KAFKA_NEWS_TOPIC cfg) sym msg).

(** What follows the computation of the window in a cycle. *)
Lemma sat_companies today (l : list string) :
  (forall s, In s l -> In s (TRACKED_COMPANIES cfg)) ->
  sat P any E
    (for_each l (process_company cfg env self (IsoDate (today - days_back)) (IsoDate today))).
Proof.
  intros Hl. apply sat_for_each. intros s Hs. apply sat_process_company.
  - intros params Hfrom Hto _. apply (P_get today); assumption.
  - intros msg. apply P_send. apply Hl. exact Hs.
Qed.

Lemma sat_cycle : sat P any E (cycle cfg env self days_back interval_seconds).
Proof.
  unfold cycle.
  apply sat_bind with (Q1 := any); [apply sat_utcnow |].
  intros now _.
  eapply sat_bind; [apply sat_py, timedelta_sat |].
  intros delta Hdelta. simpl in Hdelta. subst delta.
  eapply sat_bind; [apply sat_py, date_sub_sat |].
  intros from_d Hfrom. simpl in Hfrom. subst from_d.
  apply sat_bind with (Q1 := any); [apply sat_companies; auto |].
  intros _ _.
  repeat (apply sat_bind with (Q1 := any);
          [apply sat_print; [apply P_print | exact I] | intros _ _]).
  apply sat_sleep.
Qed.

Lemma sat_while_true fuel :
  sat P any E (while_true cfg env fuel self days_back interval_seconds).
Proof.
  induction fuel as [| n IH]; simpl.
  - apply sat_ret. exact I.
  - eapply sat_bind; [apply sat_attempt with (E := E); apply sat_cycle |].
    intros [[] | e] _; [exact IH |].
    unfold is_Exception. destruct (is_KeyboardInterrupt e); simpl.
    + apply sat_bind with (Q1 := any); [apply sat_print; [apply P_print | exact I] |].
      intros _ _. apply sat_ret. exact I.
    + apply sat_bind with (Q1 := any); [apply sat_print; [apply P_print | exact I] |].
      intros _ _.
      apply sat_bind with (Q1 := any); [apply sat_sleep |].
      intros _ _. exact IH.
Qed.

Lemma sat_run fuel :
  P EvFlush -> P EvClose ->
  sat P any E (run cfg env fuel self days_back interval_seconds).
Proof.
  intros Hflush Hclose. unfold run.
  repeat (apply sat_bind with (Q1 := any);
          [apply sat_print; [apply P_print | exact I] | intros _ _]).
  apply sat_bind with (Q1 := any); [apply sat_while_true |].
  intros [|] _.
  - apply sat_ret. exact I.
  - apply sat_bind with (Q1 := any); [apply sat_emit; [exact Hflush | exact I] |].
    intros _ _.
    apply sat_bind with (Q1 := any); [apply sat_emit; [exact Hclose | exact I] |].
    intros _ _.
    apply sat_bind with (Q1 := any); [apply sat_print; [apply P_print | exact I] |].
    intros _ _. apply sat_ret. exact I.
Qed.

End Loop.

End Invariants.

(** ** Equations of the monad *)

Lemma bind_ok {A B} (m : M A) (f : A -> M B) w a w1 t1 :
  m w = (Ok a, w1, t1) ->
  bind m f w = let '(r, w2, t2) := f a w1 in (r, w2, t1 ++ t2).
Proof. intros H. unfold bind. rewrite H. reflexivity. Qed.

Lemma bind_raise {A B} (m : M A) (f : A -> M B) w e w1 t1 :
  m w = (Raise e, w1, t1) -> bind m f w = (Raise e, w1, t1).
Proof. intros H. unfold bind. rewrite H. reflexivity. Qed.

Lemma py_get_dict items key dflt :
  py_get (PDict items) key dflt = Ok (default dflt (dict_lookup key items)).
Proof. unfold py_get. destruct (dict_lookup key items); reflexivity. Qed.

(** ** The Enricher: message construction *)

(** The message built from an article that is a dict whose [source], when
    present, has a [.get] that answered [src]. *)
Lemma build_message_dict cfg env sym items w src :
  py_get (default (PDict []) (dict_lookup "source" items)) "name" (PStr "Unknown") = Ok src ->
  build_message cfg env sym (PDict items) w =
    (Ok {| company_symbol := sym;
           company_name := mapped_name cfg sym;
           source := src;
           author := default (PStr "Unknown") (dict_lookup "author" items);
           title := default (PStr "") (dict_lookup "title" items);
           description := default (PStr "") (dict_lookup "description" items);
           url := default (PStr "") (dict_lookup "url" items);
           published_at := default (PStr "") (dict_lookup "publishedAt" items);
           content := default (PStr "") (dict_lookup "content" items);
           fetched_at := IsoDateTime (now_at env (k_now w)) |},
     tick_now w, []).
Proof.
  intros Hsrc. unfold build_message, bind, lift, utcnow, ret.
  rewrite !py_get_dict, Hsrc. reflexivity.
Qed.

(** An article without an [author] key gets the author ["Unknown"]. *)
Lemma absent_author_is_Unknown cfg env sym items w msg w1 t :
  build_message cfg env sym (PDict items) w = (Ok msg, w1, t) ->
  dict_lookup "author" items = None ->
  author msg = PStr "Unknown".
Proof.
  intros Hmsg Hauthor.
  destruct (py_get (default (PDict []) (dict_lookup "source" items)) "name" (PStr "Unknown"))
    as [src | e] eqn:Hsrc.
  - rewrite (build_message_dict _ _ _ _ _ _ Hsrc) in Hmsg.
    injection Hmsg as <- _ _. simpl. rewrite Hauthor. reflexivity.
  - unfold build_message, bind, lift in Hmsg. rewrite py_get_dict, Hsrc in Hmsg.
    discriminate.
Qed.

(** An article without a [source] key, or whose source dict has no [name]
    key, gets the source ["Unknown"]. *)
Lemma absent_source_is_Unknown cfg env sym items w msg w1 t :
  build_message cfg env sym (PDict items) w = (Ok msg, w1, t) ->
  dict_lookup "source" items = None \/
  (exists src, dict_lookup "source" items = Some (PDict src) /\
               dict_lookup "name" src = None) ->
  source msg = PStr "Unknown".
Proof.
  intros Hmsg Hsource.
  assert (Hsrc : py_get (default (PDict []) (dict_lookup "source" items)) "name"
                   (PStr "Unknown") = Ok (PStr "Unknown")).
  { destruct Hsource as [-> | (src & -> & Hname)]; simpl; [reflexivity |].
    rewrite Hname. reflexivity. }
  rewrite (build_message_dict _ _ _ _ _ _ Hsrc) in Hmsg.
  injection Hmsg as <- _ _. reflexivity.
Qed.

(** C1. The Enricher does not keep null out of the message: an article
    whose [author] is present and null is published with a null author (the
    default of [.get] applies to an absent key only), and an article whose
    [source] is null makes the message construction raise
    [AttributeError]. *)
Theorem null_author_reaches_message :
  send_to_kafka sample_cfg sample_env "AAPL" null_author_article world0 =
    (Ok tt, tick_send (tick_now world0),
     [EvSend "news-articles" "AAPL"
        {| company_symbol := "AAPL";
           company_name := "Apple";
           source := PStr "Reuters";
           author := PNone;
           title := PStr "Apple ships";
           description := PStr "Quarterly results";
           url := PStr "https://example.org/a";
           published_at := PStr "2024-05-01T10:00:00Z";
           content := PStr "Text";
           fetched_at := IsoDateTime 63849600000 |};
      EvPrint (LogSent (PStr "Apple ships") 0)]) /\
  out_result (build_message sample_cfg sample_env "AAPL" null_source_article world0) =
    Raise AttributeError.
Proof. split; vm_compute; reflexivity. Qed.

(** ** The Fetcher *)

Lemma fetch_news_request_error env self sym name from_d to_d w e :
  request_error (http_at env (k_http w)) = Some e ->
  fetch_news env self sym name from_d to_d w =
    (Ok (PList []), tick_http w,
     [EvHttpGet (base_url self) (params_of self name from_d to_d);
      EvPrint (LogRequestFailed name e)]).
Proof.
  intros Herr. unfold fetch_news, try_except, bind, requests_get, lift, raise_for_status.
  unfold request_error in Herr.
  destruct (http_at env (k_http w)) as [e0 | r].
  - destruct e0; try discriminate. injection Herr as <-. reflexivity.
  - destruct ((400 <=? status_code r) && (status_code r <? 600))%bool; [| discriminate].
    injection Herr as <-. reflexivity.
Qed.

(** A body whose status marker is present and is not ['ok'] is logged and
    counts as no article. *)
Lemma fetch_news_status_not_ok env self sym name from_d to_d w r items status :
  http_at env (k_http w) = HttpResponds r ->
  request_error (HttpResponds r) = None ->
  body r = Some (PDict items) ->
  dict_lookup "status" items = Some status ->
  py_eq_str status "ok" = false ->
  fetch_news env self sym name from_d to_d w =
    (Ok (PList []), tick_http w,
     [EvHttpGet (base_url self) (params_of self name from_d to_d);
      EvPrint (LogApiError (default (PStr "Unknown error") (dict_lookup "message" items)))]).
Proof.
  intros Hhttp Herr Hbody Hstatus Hok. simpl in Herr.
  unfold fetch_news, try_except, bind, requests_get, lift, raise_for_status, response_json.
  rewrite Hhttp.
  destruct ((400 <=? status_code r) && (status_code r <? 600))%bool; [discriminate |].
  rewrite Hbody. unfold py_getitem. rewrite Hstatus, Hok, py_get_dict. reflexivity.
Qed.

(** A body without a status marker makes [fetch_news] raise [KeyError]. *)
Lemma fetch_news_status_missing env self sym name from_d to_d w r items :
  http_at env (k_http w) = HttpResponds r ->
  request_error (HttpResponds r) = None ->
  body r = Some (PDict items) ->
  dict_lookup "status" items = None ->
  fetch_news env self sym name from_d to_d w =
    (Raise (KeyError "status"), tick_http w,
     [EvHttpGet (base_url self) (params_of self name from_d to_d)]).
Proof.
  intros Hhttp Herr Hbody Hstatus. simpl in Herr.
  unfold fetch_news, try_except, bind, requests_get, lift, raise_for_status, response_json.
  rewrite Hhttp.
  destruct ((400 <=? status_code r) && (status_code r <? 600))%bool; [discriminate |].
  rewrite Hbody. unfold py_getitem. rewrite Hstatus. reflexivity.
Qed.

(** C2. A body without a status marker is not treated as zero articles:
    [fetch_news] raises [KeyError('status')]; the exception reaches the
    handler of the main loop, which abandons the cycle (the next company,
    XYZ, is not fetched) and sleeps the cooldown. *)
Theorem missing_status_raises_KeyError :
  fetch_news no_status_env sample_self "AAPL" "Apple" (IsoDate 738993) (IsoDate 739000)
      world0 =
    (Raise (KeyError "status"), tick_http world0,
     [EvHttpGet "https://newsapi.org/v2/everything"
        (params_of sample_self "Apple" (IsoDate 738993) (IsoDate 739000))]) /\
  main sample_cfg no_status_env 1 =
    (Alive,
     [EvConnect "localhost:9092";
      EvPrint (LogStarting ["AAPL"; "XYZ"]);
      EvPrint (LogTopic "news-articles");
      EvPrint (LogDaysBack 7);
      EvPrint LogRule;
      EvPrint (LogFetching "Apple" "AAPL");
      EvHttpGet "https://newsapi.org/v2/everything"
        (params_of sample_self "Apple" (IsoDate 738993) (IsoDate 739000));
      EvPrint (LogUnexpected (KeyError "status"));
      EvSleep 60]).
Proof. split; vm_compute; reflexivity. Qed.

Lemma process_company_request_error cfg env self from_d to_d sym w e :
  request_error (http_at env (k_http w)) = Some e ->
  process_company cfg env self from_d to_d sym w =
    (if interrupted env (k_sleep w) then Raise KeyboardInterrupt else Ok tt,
     tick_sleep (tick_http w),
     failed_fetch_events cfg self from_d to_d sym e).
Proof.
  intros Herr. unfold process_company.
  unfold bind at 1. unfold print at 1, emit at 1.
  rewrite (bind_ok _ _ _ _ _ _ (fetch_news_request_error _ _ _ _ _ _ _ _ Herr)).
  unfold bind, lift, for_each, ret, sleep. simpl.
  destruct (interrupted env (k_sleep w)); reflexivity.
Qed.

(** C4, as amended.  When the fetch fails with a 4xx or 5xx response or
    with a network-level failure, [fetch_news] logs the error and returns no
    article; the company's turn makes no publish and builds no message (the
    counters of [send] and [utcnow] stand still), it goes on to the
    politeness delay, and after it the loop takes the next company. *)
Theorem failed_fetch_publishes_nothing cfg env self from_d to_d sym rest w e :
  request_error (http_at env (k_http w)) = Some e ->
  fetch_news env self sym (mapped_name cfg sym) from_d to_d w =
    (Ok (PList []), tick_http w,
     [EvHttpGet (base_url self) (params_of self (mapped_name cfg sym) from_d to_d);
      EvPrint (LogRequestFailed (mapped_name cfg sym) e)]) /\
  process_company cfg env self from_d to_d sym w =
    (if interrupted env (k_sleep w) then Raise KeyboardInterrupt else Ok tt,
     tick_sleep (tick_http w),
     failed_fetch_events cfg self from_d to_d sym e) /\
  (interrupted env (k_sleep w) = false ->
   for_each (sym :: rest) (process_company cfg env self from_d to_d) w =
     let '(r, w2, t2) :=
       for_each rest (process_company cfg env self from_d to_d) (tick_sleep (tick_http w)) in
     (r, w2, failed_fetch_events cfg self from_d to_d sym e ++ t2)).
Proof.
  intros Herr. split; [| split].
  - apply fetch_news_request_error. exact Herr.
  - apply process_company_request_error. exact Herr.
  - intros Hawake. simpl.
    pose proof (process_company_request_error cfg env self from_d to_d sym w e Herr) as Hturn.
    rewrite Hawake in Hturn. rewrite (bind_ok _ _ _ _ _ _ Hturn). reflexivity.
Qed.

(** HTTP 500 for AAPL: nothing is published and XYZ comes next. *)
Lemma failed_fetch_publishes_nothing_witness :
  process_company sample_cfg (with_http (fun _ => responds 500 None) sample_env)
      sample_self (IsoDate 738993) (IsoDate 739000) "AAPL" world0 =
    (Ok tt, tick_sleep (tick_http world0),
     failed_fetch_events sample_cfg sample_self (IsoDate 738993) (IsoDate 739000) "AAPL"
       (RequestException (HTTPError 500))).
Proof.
  apply (failed_fetch_publishes_nothing sample_cfg
           (with_http (fun _ => responds 500 None) sample_env)
           sample_self (IsoDate 738993) (IsoDate 739000) "AAPL" ["XYZ"] world0
           (RequestException (HTTPError 500))).
  reflexivity.
Defined.

(** C4 as stated fails for a response that is neither 2xx nor an error for
    [raise_for_status]: on 300 Multiple Choices with a well-formed body the
    article is returned and published. *)
Lemma non_2xx_response_is_published :
  out_result (fetch_news multiple_choices_env sample_self "AAPL" "Apple"
                (IsoDate 738993) (IsoDate 739000) world0) = Ok (PList [sample_article]) /\
  k_send (out_world (process_company sample_cfg multiple_choices_env sample_self
                       (IsoDate 738993) (IsoDate 739000) "AAPL" world0)) = 1%nat.
Proof. split; vm_compute; reflexivity. Qed.

(** ** The Publisher *)

(** C3, as amended.  A publish that fails with exception [e], raised by
    [send] or by [future.get], is attempted once; when [e] is a
    [KafkaError] it is logged and [send_to_kafka] returns normally, the
    article dropped; an exception of any other class is not caught and
    propagates to the caller. *)
Theorem kafka_error_is_logged_and_dropped cfg env sym article w msg w1 t1 e :
  build_message cfg env sym article w = (Ok msg, w1, t1) ->
  send_at env (k_send w1) = SendRaises e \/
  send_at env (k_send w1) = SendReturns (Raise e) ->
  send_to_kafka cfg env sym article w =
    (if is_KafkaError e then Ok tt else Raise e,
     tick_send w1,
     t1 ++ EvSend (KAFKA_NEWS_TOPIC cfg) sym msg ::
       (if is_KafkaError e then [EvPrint (LogSendFailed e)] else [])).
Proof.
  intros Hmsg Hsend. unfold send_to_kafka. rewrite (bind_ok _ _ _ _ _ _ Hmsg).
  unfold try_except, bind, producer_send, future_get, lift.
  destruct Hsend as [-> | ->]; destruct (is_KafkaError e); reflexivity.
Qed.

(** An acknowledgment timeout: one publish, one log line, a normal return. *)
Lemma kafka_error_is_logged_and_dropped_witness :
  out_result (send_to_kafka sample_cfg
                (with_send (fun _ => failure_outcome AckTimeout) sample_env)
                "AAPL" sample_article world0) = Ok tt.
Proof.
  rewrite (kafka_error_is_logged_and_dropped sample_cfg
             (with_send (fun _ => failure_outcome AckTimeout) sample_env)
             "AAPL" sample_article world0 (sample_message "AAPL" "Apple" 63849600000)
             (tick_now world0) [] (KafkaError KafkaTimeoutError)).
  - reflexivity.
  - vm_compute. reflexivity.
  - right. reflexivity.
Defined.

(** C3 as stated fails for a serialization error: the [TypeError] of the
    value serializer is not a [KafkaError], so [send_to_kafka] lets it
    through to its caller, without a log line of its own. *)
Lemma serialization_error_propagates :
  send_to_kafka sample_cfg
      (with_send (fun _ => failure_outcome SerializationError) sample_env)
      "AAPL" sample_article world0 =
    (Raise TypeError, tick_send (tick_now world0),
     [EvSend "news-articles" "AAPL" (sample_message "AAPL" "Apple" 63849600000)]).
Proof. vm_compute. reflexivity. Qed.

(** ** The loop: keys and date windows *)

(** C5. Every message the loop publishes goes to the configured topic under
    a key that is one of the tracked symbols; the key is the message's
    [company_symbol], while the display name, looked up in the mapping under
    that key, is carried in the value's [company_name]: the key is not the
    display name, whenever the two differ. *)
Theorem publish_key_is_tracked_symbol cfg env fuel self days_back interval_seconds w
    topic key value :
  In (EvSend topic key value)
     (out_trace (run cfg env fuel self days_back interval_seconds w)) ->
  topic = KAFKA_NEWS_TOPIC cfg /\
  In key (TRACKED_COMPANIES cfg) /\
  company_symbol value = key /\
  company_name value = mapped_name cfg key /\
  (mapped_name cfg key <> key -> key <> company_name value).
Proof.
  intros Hin.
  assert (Hsat : sat (keyed_by_symbol cfg) any any
                   (run cfg env fuel self days_back interval_seconds)).
  { apply sat_run; try (intros; exact I).
    - left. exact I.
    - intros sym msg Htracked Hsym Hname. simpl. auto. }
  destruct (Hsat w) as [Hall _].
  rewrite List.Forall_forall in Hall.
  destruct (Hall _ Hin) as (Htopic & Htracked & Hsym & Hname).
  repeat split; try assumption.
  intros Hdiff Heq. apply Hdiff. rewrite <- Hname. symmetry. exact Heq.
Qed.

(** The first cycle of the sample world publishes the article keyed AAPL. *)
Lemma publish_key_is_tracked_symbol_witness :
  "news-articles" = KAFKA_NEWS_TOPIC sample_cfg /\
  In "AAPL" (TRACKED_COMPANIES sample_cfg) /\
  company_symbol (sample_message "AAPL" "Apple" 63849600001) = "AAPL" /\
  company_name (sample_message "AAPL" "Apple" 63849600001) = mapped_name sample_cfg "AAPL" /\
  (mapped_name sample_cfg "AAPL" <> "AAPL" ->
   "AAPL" <> company_name (sample_message "AAPL" "Apple" 63849600001)).
Proof.
  apply (publish_key_is_tracked_symbol sample_cfg sample_env 1 sample_self 7 3600 world0).
  vm_compute. do 7 right. left. reflexivity.
Defined.

(** The requests of a cycle are those of its companies, for the window
    that ends on the day the cycle started. *)
Lemma cycle_requests cfg env self days_back interval_seconds w url params :
  In (EvHttpGet url params)
     (out_trace (cycle cfg env self days_back interval_seconds w)) ->
  In (EvHttpGet url params)
     (out_trace
        (for_each (TRACKED_COMPANIES cfg)
           (process_company cfg env self
              (IsoDate (utc_date (now_at env (k_now w)) - days_back))
              (IsoDate (utc_date (now_at env (k_now w)))))
           (tick_now w))).
Proof.
  unfold cycle, bind, utcnow, lift, timedelta, date_sub. simpl.
  destruct (Z.abs days_back <=? 999999999); [| intros []].
  destruct ((date_min <=? utc_date (now_at env (k_now w)) - days_back) &&
            (utc_date (now_at env (k_now w)) - days_back <=? date_max))%bool;
    [| intros []].
  destruct (for_each _ _ (tick_now w)) as [[[[] | e] w1] t1]; simpl; [| tauto].
  unfold sleep. destruct (interval_seconds <? 0);
    [| destruct (9223372036 <? interval_seconds)]; simpl;
    rewrite in_app_iff; simpl; intros [H | H]; try exact H;
    repeat (destruct H as [H | H]; [discriminate |]); destruct H.
Qed.

(** C7. In every cycle, whatever the world at its start, each request's
    window ends on the date the clock shows at the start of that cycle and
    begins [days_back] days earlier, so that from <= to; the same span holds
    of every request of a run. *)
Theorem fetch_window_spans_days_back cfg env self days_back interval_seconds :
  0 <= days_back ->
  (forall w url params,
     In (EvHttpGet url params)
        (out_trace (cycle cfg env self days_back interval_seconds w)) ->
     to_date params = IsoDate (utc_date (now_at env (k_now w))) /\
     iso_ordinal (to_date params) - iso_ordinal (from_date params) = days_back /\
     iso_ordinal (from_date params) <= iso_ordinal (to_date params)) /\
  (forall fuel w url params,
     In (EvHttpGet url params)
        (out_trace (run cfg env fuel self days_back interval_seconds w)) ->
     iso_ordinal (to_date params) - iso_ordinal (from_date params) = days_back /\
     iso_ordinal (from_date params) <= iso_ordinal (to_date params)).
Proof.
  intros Hdays. split.
  - intros w url params Hin. apply cycle_requests in Hin.
    assert (Hsat : sat (window_of (utc_date (now_at env (k_now w))) days_back) any any
                     (for_each (TRACKED_COMPANIES cfg)
                        (process_company cfg env self
                           (IsoDate (utc_date (now_at env (k_now w)) - days_back))
                           (IsoDate (utc_date (now_at env (k_now w))))))).
    { apply sat_for_each. intros sym _. apply sat_process_company; try (intros; exact I).
      - left. exact I.
      - intros p Hfrom Hto _. simpl. rewrite Hfrom, Hto. simpl. split; [reflexivity | lia]. }
    destruct (Hsat (tick_now w)) as [Hall _].
    rewrite List.Forall_forall in Hall. specialize (Hall _ Hin). simpl in Hall.
    destruct Hall as [Hto Hspan]. repeat split; [exact Hto | exact Hspan | lia].
  - intros fuel w url params Hin.
    assert (Hsat : sat (window_spans days_back) any any
                     (run cfg env fuel self days_back interval_seconds)).
    { apply sat_run; try (intros; exact I).
      - left. exact I.
      - intros today p Hto Hfrom. simpl. rewrite Hfrom, Hto. simpl. lia. }
    destruct (Hsat w) as [Hall _].
    rewrite List.Forall_forall in Hall. specialize (Hall _ Hin). simpl in Hall.
    split; [exact Hall | lia].
Qed.

(** The first request of the sample world, on day 739000 with a week's
    window. *)
Lemma fetch_window_spans_days_back_witness :
  (to_date (params_of sample_self "Apple" (IsoDate 738993) (IsoDate 739000)) =
     IsoDate (utc_date (now_at sample_env (k_now world0))) /\
   iso_ordinal (IsoDate 739000) - iso_ordinal (IsoDate 738993) = 7 /\
   iso_ordinal (IsoDate 738993) <= iso_ordinal (IsoDate 739000)) /\
  (iso_ordinal (to_date (params_of sample_self "XYZ" (IsoDate 738993) (IsoDate 739000))) -
   iso_ordinal (from_date (params_of sample_self "XYZ" (IsoDate 738993) (IsoDate 739000))) = 7 /\
   iso_ordinal (from_date (params_of sample_self "XYZ" (IsoDate 738993) (IsoDate 739000))) <=
   iso_ordinal (to_date (params_of sample_self "XYZ" (IsoDate 738993) (IsoDate 739000)))).
Proof.
  assert (Hdays : 0 <= 7) by lia.
  destruct (fetch_window_spans_days_back sample_cfg sample_env sample_self 7 3600 Hdays)
    as [Hcycle Hrun].
  split.
  - apply (Hcycle world0 "https://newsapi.org/v2/everything").
    vm_compute. right. left. reflexivity.
  - apply (Hrun 1%nat world0 "https://newsapi.org/v2/everything").
    vm_compute. do 11 right. left. reflexivity.
Defined.

(** The window moves with the clock: when a day passes between two cycles,
    the second cycle asks for a window that ends a day later. *)
Lemma window_follows_the_clock :
  flat_map (fun ev => match ev with
                      | EvHttpGet _ params => [(from_date params, to_date params)]
                      | _ => []
                      end)
    (out_trace (run sample_cfg daily_env 2 sample_self 7 3600 world0)) =
    [(IsoDate 738993, IsoDate 739000); (IsoDate 738993, IsoDate 739000);
     (IsoDate 738994, IsoDate 739001); (IsoDate 738994, IsoDate 739001)].
Proof. vm_compute. reflexivity. Qed.

(** ** The loop: errors and interrupts *)

Lemma attempt_eq {A} (m : M A) w r w1 t1 :
  m w = (r, w1, t1) -> attempt m w = (Ok r, w1, t1).
Proof. intros H. unfold attempt. rewrite H. reflexivity. Qed.

(** An interrupt raised inside the [try] block breaks out of the loop. *)
Lemma while_true_interrupted cfg env n self days_back interval_seconds w w1 t1 :
  cycle cfg env self days_back interval_seconds w = (Raise KeyboardInterrupt, w1, t1) ->
  while_true cfg env (S n) self days_back interval_seconds w =
    (Ok Broke, w1, t1 ++ [EvPrint LogShuttingDown]).
Proof.
  intros Hcycle. simpl. rewrite (bind_ok _ _ _ _ _ _ (attempt_eq _ _ _ _ _ Hcycle)).
  reflexivity.
Qed.

Lemma while_true_unexpected cfg env n self days_back interval_seconds w e w1 t1 :
  cycle cfg env self days_back interval_seconds w = (Raise e, w1, t1) ->
  is_Exception e = true ->
  interrupted env (k_sleep w1) = false ->
  while_true cfg env (S n) self days_back interval_seconds w =
    let '(r, w2, t2) :=
      while_true cfg env n self days_back interval_seconds (tick_sleep w1) in
    (r, w2, t1 ++ [EvPrint (LogUnexpected e); EvSleep 60] ++ t2).
Proof.
  intros Hcycle Herr Hawake. simpl.
  rewrite (bind_ok _ _ _ _ _ _ (attempt_eq _ _ _ _ _ Hcycle)).
  unfold is_Exception in *. destruct (is_KeyboardInterrupt e); [discriminate |]. simpl.
  unfold bind, print, emit, sleep. simpl. rewrite Hawake.
  destruct (while_true cfg env n self days_back interval_seconds (tick_sleep w1))
    as [[r w2] t2].
  reflexivity.
Qed.

(** The cooldown returns when nobody interrupts it. *)
Lemma sat_cooldown env P :
  no_interrupt env -> P (EvSleep 60) -> sat P any (fun _ => False) (sleep env 60).
Proof.
  intros (Hs & _) Hp w. unfold sleep. simpl. rewrite Hs.
  split; [repeat constructor; exact Hp | exact I].
Qed.

Lemma while_true_keeps_running cfg env fuel self days_back interval_seconds :
  no_interrupt env ->
  sat any (fun st => st = StillRunning) (fun _ => False)
      (while_true cfg env fuel self days_back interval_seconds).
Proof.
  intros Hquiet. induction fuel as [| n IH]; simpl.
  - apply sat_ret. reflexivity.
  - eapply sat_bind.
    + apply sat_attempt with (Q := any) (E1 := not_interrupt).
      apply sat_cycle; try (intros; exact I); auto.
    + intros [[] | e] He; [exact IH |]. simpl in He.
      unfold is_Exception. destruct e; try contradiction; simpl;
        (apply sat_bind with (Q1 := any); [apply sat_print; exact I |];
         intros _ _;
         apply sat_bind with (Q1 := any); [apply sat_cooldown; [exact Hquiet | exact I] |];
         intros _ _; exact IH).
Qed.

Lemma run_keeps_running cfg env fuel self days_back interval_seconds w :
  no_interrupt env ->
  out_result (run cfg env fuel self days_back interval_seconds w) = Ok StillRunning.
Proof.
  intros Hquiet.
  assert (Hsat : sat any (fun st => st = StillRunning) (fun _ => False)
                   (run cfg env fuel self days_back interval_seconds)).
  { unfold run.
    repeat (apply sat_bind with (Q1 := any); [apply sat_print; exact I | intros _ _]).
    eapply sat_bind; [apply while_true_keeps_running; exact Hquiet |].
    intros st ->. apply sat_ret. reflexivity. }
  destruct (Hsat w) as [_ Hres].
  destruct (out_result (run cfg env fuel self days_back interval_seconds w));
    simpl in Hres; [subst; reflexivity | contradiction].
Qed.

Lemma init_connected cfg env w :
  connect env = None ->
  init cfg env w =
    (Ok {| api_key := NEWS_API_KEY cfg; base_url := "https://newsapi.org/v2/everything" |},
     w, [EvConnect (KAFKA_BOOTSTRAP_SERVERS cfg)]).
Proof. intros Hc. unfold init, bind, emit. rewrite Hc. reflexivity. Qed.

(** C6, as amended.  An error (an instance of [Exception]) that escapes a
    cycle is caught by the loop, logged, followed by a sleep of 60 and by the
    next cycle; as long as the world delivers no interrupt, [run] neither
    returns nor raises, however many cycles it is given; and a process that
    no interrupt reaches ends in two ways only, both before the loop: by the
    exit of an unconfigured key, or by the exception that the constructor of
    the producer raised.  Otherwise it stays alive. *)
Theorem unexpected_error_is_retried cfg env self days_back interval_seconds :
  (forall n w e w1 t1,
     cycle cfg env self days_back interval_seconds w = (Raise e, w1, t1) ->
     is_Exception e = true ->
     interrupted env (k_sleep w1) = false ->
     while_true cfg env (S n) self days_back interval_seconds w =
       let '(r, w2, t2) :=
         while_true cfg env n self days_back interval_seconds (tick_sleep w1) in
       (r, w2, t1 ++ [EvPrint (LogUnexpected e); EvSleep 60] ++ t2)) /\
  (no_interrupt env ->
   forall fuel w,
     out_result (run cfg env fuel self days_back interval_seconds w) = Ok StillRunning) /\
  (no_interrupt env ->
   forall fuel,
     (key_not_configured cfg = true /\ fst (main cfg env fuel) = Exited 1) \/
     (key_not_configured cfg = false /\
      exists e, connect env = Some e /\ fst (main cfg env fuel) = Crashed e) \/
     (key_not_configured cfg = false /\ connect env = None /\
      fst (main cfg env fuel) = Alive)).
Proof.
  split; [| split].
  - intros n w e w1 t1. apply while_true_unexpected.
  - intros Hquiet fuel w. apply run_keeps_running. exact Hquiet.
  - intros Hquiet fuel. destruct (key_not_configured cfg) eqn:Hkey.
    + left. split; [reflexivity |]. unfold main. rewrite Hkey. reflexivity.
    + right. destruct (connect env) as [e |] eqn:Hconn.
      * left. split; [reflexivity |]. exists e. split; [reflexivity |].
        unfold main. rewrite Hkey. unfold init, bind, emit, raise. rewrite Hconn.
        reflexivity.
      * right. split; [reflexivity |]. split; [reflexivity |].
        unfold main. rewrite Hkey.
        rewrite (bind_ok _ _ _ _ _ _ (init_connected cfg env world0 Hconn)).
        pose proof (run_keeps_running cfg env fuel
                      {| api_key := NEWS_API_KEY cfg;
                         base_url := "https://newsapi.org/v2/everything" |}
                      7 3600 world0 Hquiet) as Hrun.
        destruct (run cfg env fuel _ 7 3600 world0) as [[r w2] t2].
        unfold out_result in Hrun. simpl in Hrun. subst r. reflexivity.
Qed.

(** The first cycle fails on a body without status marker: the loop logs
    the error, sleeps 60 and runs the next cycle, which fetches both
    companies and completes; and the process, which no interrupt reaches,
    stays alive. *)
Lemma unexpected_error_is_retried_witness :
  out_result (while_true sample_cfg transient_error_env 2 sample_self 7 3600 world0) =
    Ok StillRunning /\
  map (fun request => q (snd request))
      (requests_of
         (out_trace (while_true sample_cfg transient_error_env 2 sample_self 7 3600 world0))) =
    ["Apple"; "Apple"; "XYZ"] /\
  sleeps_of
    (out_trace (while_true sample_cfg transient_error_env 2 sample_self 7 3600 world0)) =
    [60; 2; 2; 3600] /\
  out_result (run sample_cfg transient_error_env 3 sample_self 7 3600 world0) =
    Ok StillRunning /\
  fst (main sample_cfg transient_error_env 3) = Alive.
Proof.
  assert (Hquiet : no_interrupt transient_error_env).
  { repeat split; intros k; simpl; try reflexivity; destruct k; discriminate. }
  destruct (unexpected_error_is_retried sample_cfg transient_error_env sample_self 7 3600)
    as (Hstep & Hrun & Hmain).
  rewrite (Hstep 1%nat world0 (KeyError "status") (tick_http (tick_now world0))
             [EvPrint (LogFetching "Apple" "AAPL");
              EvHttpGet "https://newsapi.org/v2/everything"
                (params_of sample_self "Apple" (IsoDate 738993) (IsoDate 739000))]);
    [| vm_compute; reflexivity | reflexivity | reflexivity].
  split; [vm_compute; reflexivity |].
  split; [vm_compute; reflexivity |].
  split; [vm_compute; reflexivity |].
  split.
  - apply Hrun. exact Hquiet.
  - destruct (Hmain Hquiet 3%nat) as [[Hkey _] | [(_ & e & Hconn & _) | (_ & _ & Halive)]].
    + vm_compute in Hkey. discriminate.
    + discriminate.
    + exact Halive.
Defined.

(** C6 as stated fails for the process: with the key configured and no
    interrupt, the process still ends when no broker answers the
    constructor of the producer, which [__main__] calls outside any
    handler. *)
Lemma unreachable_broker_ends_process :
  no_interrupt unreachable_broker_env /\
  key_not_configured sample_cfg = false /\
  main sample_cfg unreachable_broker_env 3 =
    (Crashed (KafkaError NoBrokersAvailable), [EvConnect "localhost:9092"]).
Proof.
  split; [| split; reflexivity].
  repeat split; intros k; simpl; try reflexivity; discriminate.
Qed.

(** After the [break], [run] flushes and closes the producer, once each. *)
Lemma run_interrupted cfg env n self days_back interval_seconds w w1 t1 :
  cycle cfg env self days_back interval_seconds w = (Raise KeyboardInterrupt, w1, t1) ->
  run cfg env (S n) self days_back interval_seconds w =
    (Ok Broke, w1,
     [EvPrint (LogStarting (TRACKED_COMPANIES cfg));
      EvPrint (LogTopic (KAFKA_NEWS_TOPIC cfg));
      EvPrint (LogDaysBack days_back);
      EvPrint LogRule] ++
     t1 ++ [EvPrint LogShuttingDown; EvFlush; EvClose; EvPrint LogStopped]).
Proof.
  intros Hcycle. unfold run. unfold bind at 1 2 3 4. unfold print at 1 2 3 4, emit at 1 2 3 4.
  rewrite (bind_ok _ _ _ _ _ _ (while_true_interrupted _ _ n _ _ _ _ _ _ Hcycle)).
  simpl. rewrite <- app_assoc. reflexivity.
Qed.

(** An interrupt during the interval sleep: the producer is flushed and
    closed exactly once and the process exits with status 0. *)
Lemma interval_interrupt_exits_0 :
  fst (main sample_cfg interval_interrupt_env 3) = Exited 0 /\
  length (List.filter is_flush (snd (main sample_cfg interval_interrupt_env 3))) = 1%nat /\
  length (List.filter is_close (snd (main sample_cfg interval_interrupt_env 3))) = 1%nat.
Proof. repeat split; vm_compute; reflexivity. Qed.

(** C8. An interrupt does not always end in a clean stop: when it arrives
    during the cooldown sleep of the loop's error handler, which lies
    outside the [try] block, [KeyboardInterrupt] leaves [run] uncaught; the
    producer is neither flushed nor closed and the process dies of the
    exception instead of exiting with status 0. *)
Theorem cooldown_interrupt_skips_cleanup :
  main sample_cfg cooldown_interrupt_env 3 =
    (Crashed KeyboardInterrupt,
     [EvConnect "localhost:9092";
      EvPrint (LogStarting ["AAPL"; "XYZ"]);
      EvPrint (LogTopic "news-articles");
      EvPrint (LogDaysBack 7);
      EvPrint LogRule;
      EvPrint (LogFetching "Apple" "AAPL");
      EvHttpGet "https://newsapi.org/v2/everything"
        (params_of sample_self "Apple" (IsoDate 738993) (IsoDate 739000));
      EvPrint (LogUnexpected (KeyError "status"));
      EvSleep 60]) /\
  length (List.filter is_flush (snd (main sample_cfg cooldown_interrupt_env 3))) = 0%nat /\
  length (List.filter is_close (snd (main sample_cfg cooldown_interrupt_env 3))) = 0%nat.
Proof. repeat split; vm_compute; reflexivity. Qed.

(** ** Startup *)

(** C9. When the API key is absent (unset or empty) or is the placeholder,
    the process prints the diagnostic and exits with status 1 before the
    producer is constructed: no event of the process is a network call. *)
Theorem unconfigured_key_exits_1 cfg env fuel :
  NEWS_API_KEY cfg = None \/
  NEWS_API_KEY cfg = Some "" \/
  NEWS_API_KEY cfg = Some "your_newsapi_key_here" ->
  main cfg env fuel =
    (Exited 1,
     [EvPrint LogNotConfigured; EvPrint LogHintEnvFile; EvPrint LogHintGetKey]) /\
  forall ev, In ev (snd (main cfg env fuel)) -> is_network_event ev = false.
Proof.
  intros Hkey.
  assert (Hmain : main cfg env fuel =
                    (Exited 1,
                     [EvPrint LogNotConfigured; EvPrint LogHintEnvFile;
                      EvPrint LogHintGetKey])).
  { unfold main, key_not_configured.
    destruct Hkey as [-> | [-> | ->]]; reflexivity. }
  split; [exact Hmain |].
  rewrite Hmain. simpl. intros ev [<- | [<- | [<- | []]]]; reflexivity.
Qed.

(** The placeholder key, in a world whose broker would have answered. *)
Lemma unconfigured_key_exits_1_witness :
  fst (main (with_key (Some "your_newsapi_key_here") sample_cfg) sample_env 5) = Exited 1.
Proof.
  destruct (unconfigured_key_exits_1
              (with_key (Some "your_newsapi_key_here") sample_cfg) sample_env 5)
    as [Hmain _].
  - right. right. reflexivity.
  - rewrite Hmain. reflexivity.
Defined.

(** ** The company mapping *)

Lemma bind_ext {A B} (m m' : M A) (f f' : A -> M B) w :
  m w = m' w -> (forall a w1, f a w1 = f' a w1) -> bind m f w = bind m' f' w.
Proof.
  intros Hm Hf. unfold bind. rewrite Hm.
  destruct (m' w) as [[[a | e] w1] t1]; [rewrite Hf |]; reflexivity.
Qed.

Lemma try_except_ext {A} (m m' : M A) handler w :
  m w = m' w -> try_except m handler w = try_except m' handler w.
Proof. intros Hm. unfold try_except. rewrite Hm. reflexivity. Qed.

Lemma for_each_ext {A} (l : list A) (f g : A -> M unit) :
  (forall x w, f x w = g x w) -> forall w, for_each l f w = for_each l g w.
Proof.
  intros Hfg. induction l as [| x rest IH]; intros w; simpl; [reflexivity |].
  apply bind_ext; [apply Hfg | intros _ w1; apply IH].
Qed.

(** Two configurations that track the same companies on the same topic and
    name them alike make the producer behave alike. *)
Section SameNames.

Context (cfg cfg' : Config) (env : Env).
Hypothesis same_tracked : TRACKED_COMPANIES cfg = TRACKED_COMPANIES cfg'.
Hypothesis same_topic : KAFKA_NEWS_TOPIC cfg = KAFKA_NEWS_TOPIC cfg'.
Hypothesis same_name : forall sym, mapped_name cfg sym = mapped_name cfg' sym.

Lemma build_message_ext sym article w :
  build_message cfg env sym article w = build_message cfg' env sym article w.
Proof. unfold build_message. rewrite same_name. reflexivity. Qed.

Lemma send_to_kafka_ext sym article w :
  send_to_kafka cfg env sym article w = send_to_kafka cfg' env sym article w.
Proof.
  unfold send_to_kafka. apply bind_ext; [apply build_message_ext |].
  intros msg w1. rewrite same_topic. reflexivity.
Qed.

Lemma process_company_ext self from_d to_d sym w :
  process_company cfg env self from_d to_d sym w =
  process_company cfg' env self from_d to_d sym w.
Proof.
  unfold process_company. rewrite same_name.
  apply bind_ext; [reflexivity | intros _ w1].
  apply bind_ext; [reflexivity | intros articles w2].
  apply bind_ext; [reflexivity | intros items w3].
  apply bind_ext; [| reflexivity].
  apply for_each_ext. intros article w4. apply send_to_kafka_ext.
Qed.

Lemma cycle_ext self days_back interval_seconds w :
  cycle cfg env self days_back interval_seconds w =
  cycle cfg' env self days_back interval_seconds w.
Proof.
  unfold cycle. rewrite same_tracked.
  apply bind_ext; [reflexivity | intros now w1].
  apply bind_ext; [reflexivity | intros delta w2].
  apply bind_ext; [reflexivity | intros from_d w3].
  apply bind_ext; [| reflexivity].
  apply for_each_ext. intros sym w4. apply process_company_ext.
Qed.

Lemma while_true_ext fuel self days_back interval_seconds w :
  while_true cfg env fuel self days_back interval_seconds w =
  while_true cfg' env fuel self days_back interval_seconds w.
Proof.
  revert w. induction fuel as [| n IH]; intros w; simpl; [reflexivity |].
  apply bind_ext; [unfold attempt; rewrite cycle_ext; reflexivity |].
  intros [[] | e] w1; [apply IH |].
  destruct (is_KeyboardInterrupt e); [reflexivity |].
  destruct (is_Exception e); [| reflexivity].
  apply bind_ext; [reflexivity | intros _ w2].
  apply bind_ext; [reflexivity | intros _ w3]. apply IH.
Qed.

Lemma run_ext fuel self days_back interval_seconds w :
  run cfg env fuel self days_back interval_seconds w =
  run cfg' env fuel self days_back interval_seconds w.
Proof.
  unfold run. rewrite same_tracked, same_topic.
  do 4 (apply bind_ext; [reflexivity | intros _ ?]).
  apply bind_ext; [apply while_true_ext | reflexivity].
Qed.

End SameNames.

(** An absent entry names the company like an entry that maps the symbol to
    itself. *)
Lemma mapped_name_insert_self cfg sym :
  COMPANY_MAPPING cfg !! sym = None ->
  forall s, mapped_name cfg s =
            mapped_name (with_mapping (<[sym := sym]> (COMPANY_MAPPING cfg)) cfg) s.
Proof.
  intros Hnone s. unfold mapped_name. simpl.
  destruct (decide (sym = s)) as [<- | Hne].
  - rewrite lookup_insert_eq, Hnone. reflexivity.
  - rewrite lookup_insert_ne by exact Hne. reflexivity.
Qed.

(** C10. For a tracked symbol without an entry in the mapping, the name is
    the symbol itself: it is the query of the company's request and the
    [company_name] of each of its messages; and [send_to_kafka] and [run]
    behave exactly as under a mapping that sends the symbol to itself, so
    that the missing entry is the cause of no failure. *)
Theorem unmapped_symbol_falls_back cfg env self from_d to_d sym :
  COMPANY_MAPPING cfg !! sym = None ->
  mapped_name cfg sym = sym /\
  (forall w url params,
     In (EvHttpGet url params)
        (out_trace (process_company cfg env self from_d to_d sym w)) ->
     q params = sym) /\
  (forall w topic key value,
     In (EvSend topic key value)
        (out_trace (process_company cfg env self from_d to_d sym w)) ->
     company_name value = sym) /\
  (forall article w,
     send_to_kafka cfg env sym article w =
     send_to_kafka (with_mapping (<[sym := sym]> (COMPANY_MAPPING cfg)) cfg) env
       sym article w) /\
  (forall fuel days_back interval_seconds w,
     run cfg env fuel self days_back interval_seconds w =
     run (with_mapping (<[sym := sym]> (COMPANY_MAPPING cfg)) cfg) env
       fuel self days_back interval_seconds w).
Proof.
  intros Hnone.
  assert (Hname : mapped_name cfg sym = sym).
  { unfold mapped_name. rewrite Hnone. reflexivity. }
  assert (Hsat : sat (named sym) any any (process_company cfg env self from_d to_d sym)).
  { apply sat_process_company; try (intros; exact I).
    - left. exact I.
    - intros params _ _ Hq. simpl. rewrite Hq. exact Hname.
    - intros msg _ Hmsg. simpl. rewrite Hmsg. exact Hname. }
  split; [exact Hname |]. split; [| split; [| split]].
  - intros w url params Hin. destruct (Hsat w) as [Hall _].
    rewrite List.Forall_forall in Hall. exact (Hall _ Hin).
  - intros w topic key value Hin. destruct (Hsat w) as [Hall _].
    rewrite List.Forall_forall in Hall. exact (Hall _ Hin).
  - intros article w. apply send_to_kafka_ext; [reflexivity |].
    apply mapped_name_insert_self. exact Hnone.
  - intros fuel days_back interval_seconds w.
    apply run_ext; [reflexivity | reflexivity |].
    apply mapped_name_insert_self. exact Hnone.
Qed.

(** XYZ is tracked and has no entry in the sample mapping. *)
Lemma unmapped_symbol_falls_back_witness :
  mapped_name sample_cfg "XYZ" = "XYZ" /\
  q (params_of sample_self "XYZ" (IsoDate 738993) (IsoDate 739000)) = "XYZ" /\
  company_name (sample_message "XYZ" "XYZ" 63849600000) = "XYZ".
Proof.
  assert (Hnone : COMPANY_MAPPING sample_cfg !! "XYZ" = None) by (vm_compute; reflexivity).
  destruct (unmapped_symbol_falls_back sample_cfg sample_env sample_self
              (IsoDate 738993) (IsoDate 739000) "XYZ" Hnone)
    as (Hname & Hquery & Hvalue & _ & _).
  split; [exact Hname |]. split.
  - apply (Hquery world0 "https://newsapi.org/v2/everything").
    vm_compute. right. left. reflexivity.
  - apply (Hvalue world0 "news-articles" "XYZ").
    vm_compute. do 3 right. left. reflexivity.
Defined.

(** ** A note on the log line of a successful publish *)

(** The title is sliced for the log line inside the [try] block: a null
    title raises [TypeError] after the message was acknowledged, and the
    exception, not being a [KafkaError], leaves [send_to_kafka]. *)
Lemma null_title_raises_after_publish :
  out_result (send_to_kafka sample_cfg sample_env "AAPL" null_title_article world0) =
    Raise TypeError /\
  k_send (out_world (send_to_kafka sample_cfg sample_env "AAPL" null_title_article world0)) =
    1%nat.
Proof. split; vm_compute; reflexivity. Qed.

(** * Further properties of the producer *)

(** ** fetch_news *)

Lemma fetch_news_effects env self sym name from_d to_d w :
  out_world (fetch_news env self sym name from_d to_d w) = tick_http w /\
  exists lines,
    out_trace (fetch_news env self sym name from_d to_d w) =
      EvHttpGet (base_url self) (params_of self name from_d to_d) :: lines /\
    forallb is_print lines = true.
Proof.
  unfold fetch_news, try_except, bind, requests_get, lift, raise_for_status,
    response_json, print, emit, ret, out_world, out_trace.
  destruct (http_at env (k_http w)) as [e | r]; simpl.
  - destruct (is_RequestException e); simpl; split; try reflexivity; eexists; split;
      reflexivity.
  - destruct ((400 <=? status_code r) && (status_code r <? 600))%bool; simpl;
      [split; [reflexivity | eexists; split; reflexivity] |].
    destruct (body r) as [data |]; simpl;
      [| split; [reflexivity | eexists; split; reflexivity]].
    destruct (py_getitem data "status") as [status | e]; simpl;
      [| destruct (is_RequestException e); simpl;
         (split; [reflexivity | eexists; split; reflexivity])].
    destruct (py_eq_str status "ok").
    + destruct (py_getitem data "totalResults") as [total | e]; simpl;
        [| destruct (is_RequestException e); simpl;
           (split; [reflexivity | eexists; split; reflexivity])].
      destruct (py_getitem data "articles") as [articles | e]; simpl;
        [| destruct (is_RequestException e); simpl];
        (split; [reflexivity | eexists; split; reflexivity]).
    + destruct (py_get data "message" (PStr "Unknown error")) as [msg | e]; simpl;
        [| destruct (is_RequestException e); simpl];
        (split; [reflexivity | eexists; split; reflexivity]).
Qed.

(** Whatever the API answers, [fetch_news] makes exactly one request, to its
    base URL with the documented parameters (the query is the company name,
    English, sorted by publication, page size 100); it does not retry,
    publish or sleep. *)
Theorem fetch_news_one_request env self sym name from_d to_d w :
  out_world (fetch_news env self sym name from_d to_d w) = tick_http w /\
  requests_of (out_trace (fetch_news env self sym name from_d to_d w)) =
    [(base_url self, params_of self name from_d to_d)] /\
  publishes_of (out_trace (fetch_news env self sym name from_d to_d w)) = [] /\
  sleeps_of (out_trace (fetch_news env self sym name from_d to_d w)) = [].
Proof.
  destruct (fetch_news_effects env self sym name from_d to_d w)
    as (Hworld & lines & Htrace & Hlines).
  split; [exact Hworld |]. rewrite Htrace.
  unfold requests_of, publishes_of, sleeps_of in *. simpl.
  assert (Hquiet : forall (B : Type) (f : event -> list B),
             (forall l, f (EvPrint l) = []) -> flat_map f lines = []).
  { intros B f Hf. clear Htrace. induction lines as [| ev rest IH]; [reflexivity |].
    simpl in Hlines. destruct ev; try discriminate. simpl. rewrite Hf. apply IH, Hlines. }
  rewrite !Hquiet by reflexivity. repeat split.
Qed.

(** No [RequestException] leaves [fetch_news]: an exception it raises is of
    another class (a [KeyError] or [TypeError] of a malformed body, or what
    [requests.get] raised besides). *)
Theorem fetch_news_catches_request_exceptions env self sym name from_d to_d w e :
  out_result (fetch_news env self sym name from_d to_d w) = Raise e ->
  is_RequestException e = false.
Proof.
  unfold fetch_news, try_except, out_result.
  destruct (bind (requests_get env (base_url self) _) _ w) as [[[a | e0] w1] t1]; simpl.
  - discriminate.
  - destruct (is_RequestException e0) eqn:Hclass; simpl.
    + discriminate.
    + intros H. injection H as <-. exact Hclass.
Qed.

(** The [KeyError] of a body without status marker is such an exception. *)
Lemma fetch_news_catches_request_exceptions_witness :
  is_RequestException (KeyError "status") = false.
Proof.
  apply (fetch_news_catches_request_exceptions no_status_env sample_self "AAPL" "Apple"
           (IsoDate 738993) (IsoDate 739000) world0).
  vm_compute. reflexivity.
Defined.

(** On a response that is no HTTP error and whose body says ['ok'],
    [fetch_news] reads the total, logs it and returns the [articles] value
    as it is, unvalidated and untruncated; it raises [KeyError] when the
    total is missing, before any log line, and when the articles are
    missing, after the log line. *)
Theorem fetch_news_status_ok env self sym name from_d to_d w r items :
  http_at env (k_http w) = HttpResponds r ->
  request_error (HttpResponds r) = None ->
  body r = Some (PDict items) ->
  dict_lookup "status" items = Some (PStr "ok") ->
  fetch_news env self sym name from_d to_d w =
    match dict_lookup "totalResults" items with
    | None =>
        (Raise (KeyError "totalResults"), tick_http w,
         [EvHttpGet (base_url self) (params_of self name from_d to_d)])
    | Some total =>
        match dict_lookup "articles" items with
        | Some articles =>
            (Ok articles, tick_http w,
             [EvHttpGet (base_url self) (params_of self name from_d to_d);
              EvPrint (LogFetched total name)])
        | None =>
            (Raise (KeyError "articles"), tick_http w,
             [EvHttpGet (base_url self) (params_of self name from_d to_d);
              EvPrint (LogFetched total name)])
        end
    end.
Proof.
  intros Hhttp Herr Hbody Hstatus. simpl in Herr.
  unfold fetch_news, try_except, bind, requests_get, lift, raise_for_status, response_json.
  rewrite Hhttp.
  destruct ((400 <=? status_code r) && (status_code r <? 600))%bool; [discriminate |].
  rewrite Hbody. unfold py_getitem. rewrite Hstatus. simpl.
  destruct (dict_lookup "totalResults" items) as [total |]; [| reflexivity].
  destruct (dict_lookup "articles" items) as [articles |]; reflexivity.
Qed.

(** The sample world: one article is announced and returned. *)
Lemma fetch_news_status_ok_witness :
  fetch_news sample_env sample_self "AAPL" "Apple" (IsoDate 738993) (IsoDate 739000) world0 =
    (Ok (PList [sample_article]), tick_http world0,
     [EvHttpGet (base_url sample_self)
        (params_of sample_self "Apple" (IsoDate 738993) (IsoDate 739000));
      EvPrint (LogFetched (PInt 1) "Apple")]).
Proof.
  rewrite (fetch_news_status_ok sample_env sample_self "AAPL" "Apple"
             (IsoDate 738993) (IsoDate 739000) world0
             {| status_code := 200; body := Some (ok_body [sample_article]) |}
             [("status", PStr "ok"); ("totalResults", PInt 1);
              ("articles", PList [sample_article])]);
    reflexivity.
Defined.

(** ** The message construction *)

Lemma build_message_cases cfg env sym article w :
  (enrichable article = true ->
   build_message cfg env sym article w =
     (Ok (enriched cfg sym (article_items article) (now_at env (k_now w))),
      tick_now w, [])) /\
  (enrichable article = false ->
   build_message cfg env sym article w = (Raise AttributeError, w, [])).
Proof.
  unfold enrichable. destruct article as [| b | z | s | l | items];
    try (split; [discriminate | reflexivity]).
  split; intros Hsrc.
  - rewrite (build_message_dict cfg env sym items w (source_name items)).
    + reflexivity.
    + unfold source_name.
      destruct (dict_lookup "source" items) as [[| b | z | s | l | src] |];
        try discriminate; simpl; [| reflexivity].
      apply py_get_dict.
  - unfold build_message, bind, lift. rewrite py_get_dict.
    destruct (dict_lookup "source" items) as [[| b | z | s | l | src] |];
      try discriminate; reflexivity.
Qed.

(** [build_message] raises exactly on the articles that are not
    [enrichable], always [AttributeError], without reading the clock; on the
    others it reads the clock once and returns the message whose fields are
    the article's values, or the defaults for the keys the article lacks.
    It emits no event either way. *)
Theorem build_message_outcome cfg env sym article w :
  build_message cfg env sym article w =
    if enrichable article
    then (Ok (enriched cfg sym (article_items article) (now_at env (k_now w))),
          tick_now w, [])
    else (Raise AttributeError, w, []).
Proof.
  destruct (build_message_cases cfg env sym article w) as [Hok Hraise].
  destruct (enrichable article).
  - apply Hok. reflexivity.
  - apply Hraise. reflexivity.
Qed.


(** ** send_to_kafka *)

(** What [send_to_kafka] does with an enrichable article, by the answer of
    the broker. *)
Lemma send_to_kafka_enrichable cfg env sym article w :
  enrichable article = true ->
  send_to_kafka cfg env sym article w =
    match send_at env (k_send w) with
    | SendRaises e | SendReturns (Raise e) =>
        (if is_KafkaError e then Ok tt else Raise e,
         tick_send (tick_now w),
         EvSend (KAFKA_NEWS_TOPIC cfg) sym
           (enriched cfg sym (article_items article) (now_at env (k_now w)))
           :: (if is_KafkaError e then [EvPrint (LogSendFailed e)] else []))
    | SendReturns (Ok md) =>
        match py_slice_to 60 (default (PStr "") (dict_lookup "title" (article_items article))) with
        | Ok prefix =>
            (Ok tt, tick_send (tick_now w),
             [EvSend (KAFKA_NEWS_TOPIC cfg) sym
                (enriched cfg sym (article_items article) (now_at env (k_now w)));
              EvPrint (LogSent prefix (partition md))])
        | Raise _ =>
            (Raise TypeError, tick_send (tick_now w),
             [EvSend (KAFKA_NEWS_TOPIC cfg) sym
                (enriched cfg sym (article_items article) (now_at env (k_now w)))])
        end
    end.
Proof.
  intros Hen. unfold send_to_kafka.
  destruct (build_message_cases cfg env sym article w) as [Hmsg _].
  rewrite (bind_ok _ _ _ _ _ _ (Hmsg Hen)).
  unfold try_except, bind, producer_send, future_get, lift, print, emit. simpl.
  destruct (send_at env (k_send w)) as [e | [md | e]]; simpl.
  - destruct (is_KafkaError e); reflexivity.
  - destruct (default (PStr "") (dict_lookup "title" (article_items article)));
      reflexivity.
  - destruct (is_KafkaError e); reflexivity.
Qed.

Lemma send_to_kafka_quiet cfg env sym article w :
  requests_of (out_trace (send_to_kafka cfg env sym article w)) = [] /\
  sleeps_of (out_trace (send_to_kafka cfg env sym article w)) = [].
Proof.
  destruct (enrichable article) eqn:Hen.
  - rewrite (send_to_kafka_enrichable cfg env sym article w Hen).
    destruct (send_at env (k_send w)) as [e | [md | e]];
      try (destruct (is_KafkaError e); split; reflexivity).
    destruct (py_slice_to 60 _); split; reflexivity.
  - destruct (build_message_cases cfg env sym article w) as [_ Hraise].
    unfold send_to_kafka. rewrite (bind_raise _ _ _ _ _ _ (Hraise Hen)).
    split; reflexivity.
Qed.

(** [send_to_kafka] calls [producer.send] exactly once for an enrichable
    article, whatever the broker answers (no retry), under the configured
    topic, keyed by the symbol, with the enriched message; for any other
    article it makes no call.  It never requests and never sleeps. *)
Theorem send_to_kafka_publishes_once cfg env sym article w :
  publishes_of (out_trace (send_to_kafka cfg env sym article w)) =
    (if enrichable article
     then [(KAFKA_NEWS_TOPIC cfg, sym,
            enriched cfg sym (article_items article) (now_at env (k_now w)))]
     else []) /\
  k_send (out_world (send_to_kafka cfg env sym article w)) =
    (if enrichable article then S (k_send w) else k_send w) /\
  requests_of (out_trace (send_to_kafka cfg env sym article w)) = [] /\
  sleeps_of (out_trace (send_to_kafka cfg env sym article w)) = [].
Proof.
  destruct (enrichable article) eqn:Hen.
  - rewrite (send_to_kafka_enrichable cfg env sym article w Hen).
    destruct (send_at env (k_send w)) as [e | [md | e]];
      try (destruct (is_KafkaError e); repeat split; reflexivity).
    destruct (py_slice_to 60 _); repeat split; reflexivity.
  - destruct (build_message_cases cfg env sym article w) as [_ Hraise].
    unfold send_to_kafka. rewrite (bind_raise _ _ _ _ _ _ (Hraise Hen)).
    repeat split; reflexivity.
Qed.

(** No [KafkaError] leaves [send_to_kafka]. *)
Theorem send_to_kafka_catches_kafka_errors cfg env sym article w e :
  out_result (send_to_kafka cfg env sym article w) = Raise e ->
  is_KafkaError e = false.
Proof.
  destruct (enrichable article) eqn:Hen.
  - rewrite (send_to_kafka_enrichable cfg env sym article w Hen).
    destruct (send_at env (k_send w)) as [e0 | [md | e0]].
    + destruct (is_KafkaError e0) eqn:Hclass; unfold out_result; simpl;
        [discriminate | intros H; injection H as <-; exact Hclass].
    + destruct (py_slice_to 60 _); unfold out_result; simpl;
        [discriminate | intros H; injection H as <-; reflexivity].
    + destruct (is_KafkaError e0) eqn:Hclass; unfold out_result; simpl;
        [discriminate | intros H; injection H as <-; exact Hclass].
  - destruct (build_message_cases cfg env sym article w) as [_ Hraise].
    unfold send_to_kafka. rewrite (bind_raise _ _ _ _ _ _ (Hraise Hen)).
    unfold out_result. simpl. intros H. injection H as <-. reflexivity.
Qed.

(** The [TypeError] of a null title is what leaves it in the sample world. *)
Lemma send_to_kafka_catches_kafka_errors_witness :
  is_KafkaError TypeError = false.
Proof.
  apply (send_to_kafka_catches_kafka_errors sample_cfg sample_env "AAPL"
           null_title_article world0).
  vm_compute. reflexivity.
Defined.

(** Slicing a string keeps whole characters: the first [n] of them, or all
    of them when there are fewer, and the slice begins the string. *)
Lemma utf8_take_length n s : utf8_length (utf8_take n s) = Nat.min n (utf8_length s).
Proof.
  revert n. induction s as [| c rest IH]; intros n; cbn [utf8_take utf8_length].
  - symmetry. apply Nat.min_0_r.
  - destruct (is_continuation c) eqn:Hc.
    + cbn [utf8_length]. rewrite Hc. apply IH.
    + destruct n as [| m]; [reflexivity |].
      cbn [utf8_length]. rewrite Hc, IH. reflexivity.
Qed.

Lemma utf8_take_prefix n s : String.prefix (utf8_take n s) s = true.
Proof.
  revert n. induction s as [| c rest IH]; intros n; cbn [utf8_take]; [reflexivity |].
  destruct (is_continuation c).
  - simpl. destruct (ascii_dec c c) as [_ | Hne]; [apply IH | contradiction].
  - destruct n as [| m]; [reflexivity |].
    simpl. destruct (ascii_dec c c) as [_ | Hne]; [apply IH | contradiction].
Qed.

(** A two-byte character is not cut: the first character of the UTF-8 text
    of e-acute followed by [a] is its two bytes. *)
Lemma utf8_take_whole_character :
  utf8_take 1 (String (ascii_of_nat 195) (String (ascii_of_nat 169) "a")) =
    String (ascii_of_nat 195) (String (ascii_of_nat 169) "").
Proof. reflexivity. Qed.

(** When the broker acknowledges the message of an enrichable article whose
    title is not a dict, [send_to_kafka] logs the partition and [title[:60]]
    and returns: for a string title the first 60 characters, or the whole
    title when it has fewer, for a list title its first 60 elements; but a
    title that is null, a number or a boolean cannot be sliced, and
    [TypeError] leaves [send_to_kafka] although the message was delivered. *)
Theorem send_to_kafka_acknowledged cfg env sym article w md :
  enrichable article = true ->
  send_at env (k_send w) = SendReturns (Ok md) ->
  is_dict (default (PStr "") (dict_lookup "title" (article_items article))) = false ->
  send_to_kafka cfg env sym article w =
    match default (PStr "") (dict_lookup "title" (article_items article)) with
    | PStr s =>
        (Ok tt, tick_send (tick_now w),
         [EvSend (KAFKA_NEWS_TOPIC cfg) sym
            (enriched cfg sym (article_items article) (now_at env (k_now w)));
          EvPrint (LogSent (PStr (utf8_take 60 s)) (partition md))])
    | PList l =>
        (Ok tt, tick_send (tick_now w),
         [EvSend (KAFKA_NEWS_TOPIC cfg) sym
            (enriched cfg sym (article_items article) (now_at env (k_now w)));
          EvPrint (LogSent (PList (firstn 60 l)) (partition md))])
    | _ =>
        (Raise TypeError, tick_send (tick_now w),
         [EvSend (KAFKA_NEWS_TOPIC cfg) sym
            (enriched cfg sym (article_items article) (now_at env (k_now w)))])
    end /\
  (forall s,
     utf8_length (utf8_take 60 s) = Nat.min 60 (utf8_length s) /\
     String.prefix (utf8_take 60 s) s = true).
Proof.
  intros Hen Hsend Htitle. split.
  - rewrite (send_to_kafka_enrichable cfg env sym article w Hen). rewrite Hsend.
    destruct (default (PStr "") (dict_lookup "title" (article_items article)));
      reflexivity.
  - intros s. split; [apply utf8_take_length | apply utf8_take_prefix].
Qed.

(** The sample article is acknowledged on partition 0; its title has fewer
    than 60 characters and is logged whole. *)
Lemma send_to_kafka_acknowledged_witness :
  send_to_kafka sample_cfg sample_env "AAPL" sample_article world0 =
    (Ok tt, tick_send (tick_now world0),
     [EvSend "news-articles" "AAPL" (sample_message "AAPL" "Apple" 63849600000);
      EvPrint (LogSent (PStr "Apple ships") 0)]).
Proof.
  destruct (send_to_kafka_acknowledged sample_cfg sample_env "AAPL" sample_article world0
              {| partition := 0 |}) as [Hsend _];
    [reflexivity | reflexivity | reflexivity |].
  rewrite Hsend. reflexivity.
Defined.

(** ** One company's turn *)

Lemma requests_of_app t1 t2 : requests_of (t1 ++ t2) = requests_of t1 ++ requests_of t2.
Proof. apply flat_map_app. Qed.

Lemma publishes_of_app t1 t2 : publishes_of (t1 ++ t2) = publishes_of t1 ++ publishes_of t2.
Proof. apply flat_map_app. Qed.

Lemma sleeps_of_app t1 t2 : sleeps_of (t1 ++ t2) = sleeps_of t1 ++ sleeps_of t2.
Proof. apply flat_map_app. Qed.

Lemma fetch_news_returns env self sym name from_d to_d w r items total articles :
  http_at env (k_http w) = HttpResponds r ->
  request_error (HttpResponds r) = None ->
  body r = Some (PDict items) ->
  dict_lookup "status" items = Some (PStr "ok") ->
  dict_lookup "totalResults" items = Some total ->
  dict_lookup "articles" items = Some articles ->
  fetch_news env self sym name from_d to_d w =
    (Ok articles, tick_http w,
     [EvHttpGet (base_url self) (params_of self name from_d to_d);
      EvPrint (LogFetched total name)]).
Proof.
  intros Hhttp Herr Hbody Hstatus Htotal Harticles. simpl in Herr.
  unfold fetch_news, try_except, bind, requests_get, lift, raise_for_status, response_json.
  rewrite Hhttp.
  destruct ((400 <=? status_code r) && (status_code r <? 600))%bool; [discriminate |].
  rewrite Hbody. unfold py_getitem. rewrite Hstatus, Htotal, Harticles. reflexivity.
Qed.

Lemma send_to_kafka_benign cfg env sym article w :
  publishable article = true ->
  benign (send_at env (k_send w)) = true ->
  exists line,
    send_to_kafka cfg env sym article w =
      (Ok tt, tick_send (tick_now w),
       [EvSend (KAFKA_NEWS_TOPIC cfg) sym
          (enriched cfg sym (article_items article) (now_at env (k_now w)));
        EvPrint line]).
Proof.
  unfold publishable. intros Hpub Hben. apply andb_prop in Hpub as [Hen Hslice].
  rewrite (send_to_kafka_enrichable cfg env sym article w Hen).
  destruct (send_at env (k_send w)) as [e | [md | e]]; simpl in Hben.
  - rewrite Hben. eexists. reflexivity.
  - destruct (default (PStr "") (dict_lookup "title" (article_items article)));
      try discriminate; eexists; reflexivity.
  - rewrite Hben. eexists. reflexivity.
Qed.

Lemma for_each_send_benign cfg env sym articles :
  (forall k, benign (send_at env k) = true) ->
  Forall (fun article => publishable article = true) articles ->
  forall w,
    out_result (for_each articles (send_to_kafka cfg env sym) w) = Ok tt /\
    out_world (for_each articles (send_to_kafka cfg env sym) w) =
      {| k_now := k_now w + length articles; k_http := k_http w;
         k_send := k_send w + length articles; k_sleep := k_sleep w |} /\
    publishes_of (out_trace (for_each articles (send_to_kafka cfg env sym) w)) =
      enrich_all cfg env sym articles (k_now w) /\
    requests_of (out_trace (for_each articles (send_to_kafka cfg env sym) w)) = [] /\
    sleeps_of (out_trace (for_each articles (send_to_kafka cfg env sym) w)) = [].
Proof.
  intros Hben Hall. induction Hall as [| article rest Hpub _ IH]; intros w.
  - simpl. repeat split. unfold out_world. simpl. destruct w. simpl. f_equal; lia.
  - simpl.
    destruct (send_to_kafka_benign cfg env sym article w Hpub (Hben _)) as [line Hsend].
    rewrite (bind_ok _ _ _ _ _ _ Hsend).
    destruct (IH (tick_send (tick_now w))) as (Hres & Hw & Hpubs & Hreqs & Hsleeps).
    destruct (for_each rest (send_to_kafka cfg env sym) (tick_send (tick_now w)))
      as [[r1 w1] t1].
    unfold out_result, out_world, out_trace in *. simpl in *.
    repeat split; try assumption.
    + rewrite Hw. f_equal; lia.
    + rewrite Hpubs. reflexivity.
Qed.

(** When the fetch returns a list of publishable articles and the broker
    acknowledges or fails with [KafkaError] only, the company's turn makes
    one request, then one publish per article, in the order of the list,
    each keyed by the symbol (a [KafkaError] on one article does not stop
    the next ones), and ends with the delay of 2. *)
Theorem process_company_publishes_in_order cfg env self from_d to_d sym w
    r items total articles :
  http_at env (k_http w) = HttpResponds r ->
  request_error (HttpResponds r) = None ->
  body r = Some (PDict items) ->
  dict_lookup "status" items = Some (PStr "ok") ->
  dict_lookup "totalResults" items = Some total ->
  dict_lookup "articles" items = Some (PList articles) ->
  (forall k, benign (send_at env k) = true) ->
  Forall (fun article => publishable article = true) articles ->
  out_result (process_company cfg env self from_d to_d sym w) =
    (if interrupted env (k_sleep w) then Raise KeyboardInterrupt else Ok tt) /\
  publishes_of (out_trace (process_company cfg env self from_d to_d sym w)) =
    enrich_all cfg env sym articles (k_now w) /\
  requests_of (out_trace (process_company cfg env self from_d to_d sym w)) =
    [(base_url self, params_of self (mapped_name cfg sym) from_d to_d)] /\
  sleeps_of (out_trace (process_company cfg env self from_d to_d sym w)) = [2].
Proof.
  intros Hhttp Herr Hbody Hstatus Htotal Harticles Hben Hall.
  destruct (for_each_send_benign cfg env sym articles Hben Hall (tick_http w))
    as (Hres & Hw & Hpubs & Hreqs & Hsleeps).
  destruct (for_each articles (send_to_kafka cfg env sym) (tick_http w))
    as [[r1 w1] t1] eqn:Hsends.
  unfold out_result, out_world, out_trace in *. simpl in Hres, Hw, Hpubs, Hreqs, Hsleeps.
  subst r1 w1.
  assert (Hturn : process_company cfg env self from_d to_d sym w =
                    (if interrupted env (k_sleep w) then Raise KeyboardInterrupt else Ok tt,
                     tick_sleep
                       {| k_now := k_now w + length articles; k_http := S (k_http w);
                          k_send := k_send w + length articles; k_sleep := k_sleep w |},
                     EvPrint (LogFetching (mapped_name cfg sym) sym)
                       :: EvHttpGet (base_url self)
                            (params_of self (mapped_name cfg sym) from_d to_d)
                       :: EvPrint (LogFetched total (mapped_name cfg sym))
                       :: t1 ++ [EvSleep 2])).
  { unfold process_company. unfold bind at 1. unfold print at 1, emit at 1.
    rewrite (bind_ok _ _ _ _ _ _
               (fetch_news_returns env self sym (mapped_name cfg sym) from_d to_d w r items
                  total (PList articles) Hhttp Herr Hbody Hstatus Htotal Harticles)).
    unfold bind at 1. unfold lift at 1. simpl py_iter. cbv iota beta.
    unfold bind at 1. rewrite Hsends. unfold sleep. simpl.
    destruct (interrupted env (k_sleep w)); reflexivity. }
  rewrite Hturn. simpl.
  repeat split.
  - rewrite publishes_of_app, Hpubs. simpl. apply app_nil_r.
  - rewrite requests_of_app, Hreqs. reflexivity.
  - rewrite sleeps_of_app, Hsleeps. reflexivity.
Qed.

(** The sample world: one article for AAPL, published, then the delay. *)
Lemma process_company_publishes_in_order_witness :
  publishes_of (out_trace (process_company sample_cfg sample_env sample_self
                             (IsoDate 738993) (IsoDate 739000) "AAPL" world0)) =
    [("news-articles", "AAPL", sample_message "AAPL" "Apple" 63849600000)] /\
  sleeps_of (out_trace (process_company sample_cfg sample_env sample_self
                          (IsoDate 738993) (IsoDate 739000) "AAPL" world0)) = [2].
Proof.
  destruct (process_company_publishes_in_order sample_cfg sample_env sample_self
              (IsoDate 738993) (IsoDate 739000) "AAPL" world0
              {| status_code := 200; body := Some (ok_body [sample_article]) |}
              [("status", PStr "ok"); ("totalResults", PInt 1);
               ("articles", PList [sample_article])]
              (PInt 1) [sample_article])
    as (_ & Hpubs & _ & Hsleeps); try reflexivity.
  - repeat constructor.
  - split; [exact Hpubs | exact Hsleeps].
Defined.

(** ** One cycle *)

Lemma bind_trace {A B} (m : M A) (f : A -> M B) w :
  out_trace (bind m f w) =
    out_trace (m w) ++
    match out_result (m w) with
    | Ok a => out_trace (f a (out_world (m w)))
    | Raise _ => []
    end.
Proof.
  unfold bind, out_trace, out_result, out_world.
  destruct (m w) as [[[a | e] w1] t1]; simpl.
  - destruct (f a w1) as [[r2 w2] t2]. reflexivity.
  - symmetry. apply app_nil_r.
Qed.

Lemma bind_result {A B} (m : M A) (f : A -> M B) w :
  out_result (bind m f w) =
    match out_result (m w) with
    | Ok a => out_result (f a (out_world (m w)))
    | Raise e => Raise e
    end.
Proof.
  unfold bind, out_result, out_world.
  destruct (m w) as [[[a | e] w1] t1]; simpl; [| reflexivity].
  destruct (f a w1) as [[r2 w2] t2]. reflexivity.
Qed.

Lemma is_print_projections lines :
  forallb is_print lines = true ->
  requests_of lines = [] /\ publishes_of lines = [] /\ sleeps_of lines = [].
Proof.
  induction lines as [| ev rest IH]; simpl; [auto |].
  destruct ev; simpl; try discriminate. exact IH.
Qed.

Lemma for_each_send_quiet cfg env sym articles w :
  requests_of (out_trace (for_each articles (send_to_kafka cfg env sym) w)) = [] /\
  sleeps_of (out_trace (for_each articles (send_to_kafka cfg env sym) w)) = [].
Proof.
  revert w. induction articles as [| article rest IH]; intros w; simpl; [auto |].
  rewrite bind_trace, requests_of_app, sleeps_of_app.
  destruct (send_to_kafka_quiet cfg env sym article w) as [-> ->].
  destruct (out_result (send_to_kafka cfg env sym article w)); simpl; [apply IH | auto].
Qed.

Lemma sleep_effects env seconds w :
  requests_of (out_trace (sleep env seconds w)) = [] /\
  (out_result (sleep env seconds w) = Ok tt ->
   sleeps_of (out_trace (sleep env seconds w)) = [seconds] /\ 0 <= seconds).
Proof.
  unfold sleep. destruct (seconds <? 0) eqn:Hneg; simpl.
  - split; [reflexivity | discriminate].
  - destruct (9223372036 <? seconds); simpl; [split; [reflexivity | discriminate] |].
    split; [reflexivity |]. intros _. split; [reflexivity | lia].
Qed.

(** The turn of a company, stage by stage. *)
Lemma process_company_stages cfg env self from_d to_d sym w :
  process_company cfg env self from_d to_d sym w =
    let '(r1, w1, t1) := fetch_news env self sym (mapped_name cfg sym) from_d to_d w in
    match r1 with
    | Raise e => (Raise e, w1, EvPrint (LogFetching (mapped_name cfg sym) sym) :: t1)
    | Ok articles =>
        match py_iter articles with
        | Raise e => (Raise e, w1, EvPrint (LogFetching (mapped_name cfg sym) sym) :: t1)
        | Ok items =>
            let '(r2, w2, t2) := for_each items (send_to_kafka cfg env sym) w1 in
            match r2 with
            | Raise e =>
                (Raise e, w2, EvPrint (LogFetching (mapped_name cfg sym) sym) :: t1 ++ t2)
            | Ok _ =>
                let '(r3, w3, t3) := sleep env 2 w2 in
                (r3, w3, EvPrint (LogFetching (mapped_name cfg sym) sym) :: t1 ++ t2 ++ t3)
            end
        end
    end.
Proof.
  unfold process_company, bind, print, emit, lift. simpl.
  destruct (fetch_news env self sym (mapped_name cfg sym) from_d to_d w)
    as [[[articles | e] w1] t1]; [| reflexivity].
  destruct (py_iter articles) as [items | e]; [| rewrite app_nil_r; reflexivity].
  simpl.
  destruct (for_each items (send_to_kafka cfg env sym) w1) as [[[[] | e] w2] t2];
    [| reflexivity].
  destruct (sleep env 2 w2) as [[r3 w3] t3]. reflexivity.
Qed.

(** A company's turn makes exactly one request, whatever happens, and a turn
    that comes to its end has slept the delay of 2 and nothing else. *)
Lemma process_company_effects cfg env self from_d to_d sym w :
  requests_of (out_trace (process_company cfg env self from_d to_d sym w)) =
    [(base_url self, params_of self (mapped_name cfg sym) from_d to_d)] /\
  (out_result (process_company cfg env self from_d to_d sym w) = Ok tt ->
   sleeps_of (out_trace (process_company cfg env self from_d to_d sym w)) = [2]).
Proof.
  rewrite process_company_stages.
  destruct (fetch_news_effects env self sym (mapped_name cfg sym) from_d to_d w)
    as (_ & lines & Htrace & Hlines).
  apply is_print_projections in Hlines as (Hreq & _ & Hsl).
  destruct (fetch_news env self sym (mapped_name cfg sym) from_d to_d w)
    as [[r1 w1] t1].
  unfold out_trace in Htrace. simpl in Htrace. subst t1.
  unfold out_trace, out_result. unfold requests_of, sleeps_of in *.
  destruct r1 as [articles | e]; simpl; [| rewrite Hreq; split; [reflexivity | discriminate]].
  destruct (py_iter articles) as [items | e]; simpl;
    [| rewrite Hreq; split; [reflexivity | discriminate]].
  destruct (for_each_send_quiet cfg env sym items w1) as [Hreq2 Hsl2].
  destruct (for_each items (send_to_kafka cfg env sym) w1) as [[r2 w2] t2].
  unfold out_trace, requests_of, sleeps_of in Hreq2, Hsl2. simpl in Hreq2, Hsl2.
  destruct r2 as [[] | e]; simpl.
  - rewrite !flat_map_app, Hreq, Hreq2, Hsl, Hsl2. simpl. split; reflexivity.
  - rewrite flat_map_app, Hreq, Hreq2. split; [reflexivity | discriminate].
Qed.

Lemma companies_effects cfg env self from_d to_d (l : list string) w :
  (exists n,
     requests_of (out_trace (for_each l (process_company cfg env self from_d to_d) w)) =
       firstn n (map (fun sym => (base_url self,
                                  params_of self (mapped_name cfg sym) from_d to_d)) l)) /\
  (out_result (for_each l (process_company cfg env self from_d to_d) w) = Ok tt ->
   requests_of (out_trace (for_each l (process_company cfg env self from_d to_d) w)) =
     map (fun sym => (base_url self, params_of self (mapped_name cfg sym) from_d to_d)) l /\
   sleeps_of (out_trace (for_each l (process_company cfg env self from_d to_d) w)) =
     repeat 2 (length l)).
Proof.
  revert w. induction l as [| sym rest IH]; intros w.
  - split; [exists 0%nat; reflexivity | intros _; split; reflexivity].
  - cbn [for_each]. rewrite bind_trace, bind_result.
    destruct (process_company_effects cfg env self from_d to_d sym w) as [Hreq Hsl].
    destruct (out_result (process_company cfg env self from_d to_d sym w)) as [[] | e].
    + destruct (IH (out_world (process_company cfg env self from_d to_d sym w)))
        as [[n Hn] Hok].
      rewrite requests_of_app, sleeps_of_app, Hreq, (Hsl eq_refl). split.
      * exists (S n). rewrite Hn. reflexivity.
      * intros Hres. destruct (Hok Hres) as [-> ->]. split; reflexivity.
    + rewrite app_nil_r, Hreq. split; [| discriminate].
      exists 1%nat. reflexivity.
Qed.

(** One cycle, stage by stage. *)
Lemma cycle_stages cfg env self days_back interval_seconds w :
  cycle cfg env self days_back interval_seconds w =
    match timedelta days_back with
    | Raise e => (Raise e, tick_now w, [])
    | Ok delta =>
        match date_sub (utc_date (now_at env (k_now w))) delta with
        | Raise e => (Raise e, tick_now w, [])
        | Ok from_ordinal =>
            let '(r1, w1, t1) :=
              for_each (TRACKED_COMPANIES cfg)
                (process_company cfg env self (IsoDate from_ordinal)
                   (IsoDate (utc_date (now_at env (k_now w)))))
                (tick_now w) in
            match r1 with
            | Raise e => (Raise e, w1, t1)
            | Ok _ =>
                let '(r2, w2, t2) := sleep env interval_seconds w1 in
                (r2, w2,
                 t1 ++ [EvPrint LogRule; EvPrint (LogBatchComplete interval_seconds);
                        EvPrint LogRule] ++ t2)
            end
        end
    end.
Proof.
  unfold cycle, bind, utcnow, lift, print, emit. simpl.
  destruct (timedelta days_back) as [delta | e]; [| reflexivity].
  destruct (date_sub (utc_date (now_at env (k_now w))) delta) as [from_ordinal | e];
    [| reflexivity].
  destruct (for_each _ _ (tick_now w)) as [[[[] | e] w1] t1]; [| reflexivity].
  destruct (sleep env interval_seconds w1) as [[r2 w2] t2]. reflexivity.
Qed.

Lemma cycle_effects cfg env self days_back interval_seconds w :
  (exists n,
     requests_of (out_trace (cycle cfg env self days_back interval_seconds w)) =
       firstn n (tracked_requests cfg self
                   (IsoDate (utc_date (now_at env (k_now w)) - days_back))
                   (IsoDate (utc_date (now_at env (k_now w)))))) /\
  (out_result (cycle cfg env self days_back interval_seconds w) = Ok tt ->
   requests_of (out_trace (cycle cfg env self days_back interval_seconds w)) =
     tracked_requests cfg self
       (IsoDate (utc_date (now_at env (k_now w)) - days_back))
       (IsoDate (utc_date (now_at env (k_now w)))) /\
   sleeps_of (out_trace (cycle cfg env self days_back interval_seconds w)) =
     repeat 2 (length (TRACKED_COMPANIES cfg)) ++ [interval_seconds] /\
   0 <= interval_seconds).
Proof.
  rewrite cycle_stages. unfold timedelta, date_sub, tracked_requests.
  destruct (Z.abs days_back <=? 999999999);
    [| split; [exists 0%nat; reflexivity | discriminate]].
  destruct ((date_min <=? utc_date (now_at env (k_now w)) - days_back) &&
            (utc_date (now_at env (k_now w)) - days_back <=? date_max))%bool;
    [| split; [exists 0%nat; reflexivity | discriminate]].
  destruct (companies_effects cfg env self
              (IsoDate (utc_date (now_at env (k_now w)) - days_back))
              (IsoDate (utc_date (now_at env (k_now w))))
              (TRACKED_COMPANIES cfg) (tick_now w)) as [[n Hn] Hok].
  destruct (for_each _ _ (tick_now w)) as [[r1 w1] t1].
  unfold out_trace, out_result in Hn, Hok. simpl in Hn, Hok.
  destruct r1 as [[] | e]; [| split; [exists n; exact Hn | discriminate]].
  destruct (Hok eq_refl) as [Hreq Hsl].
  destruct (sleep_effects env interval_seconds w1) as [Hreq2 Hsl2].
  destruct (sleep env interval_seconds w1) as [[r2 w2] t2].
  unfold out_trace, out_result in *. simpl in Hreq2, Hsl2. cbn [fst snd].
  rewrite !requests_of_app, !sleeps_of_app, Hreq, Hreq2, Hsl.
  split.
  - exists (length (TRACKED_COMPANIES cfg)).
    rewrite <- (length_map (fun sym => (base_url self,
                  params_of self (mapped_name cfg sym)
                    (IsoDate (utc_date (now_at env (k_now w)) - days_back))
                    (IsoDate (utc_date (now_at env (k_now w)))))) (TRACKED_COMPANIES cfg)).
    rewrite firstn_all. simpl. rewrite app_nil_r. reflexivity.
  - intros Hres. destruct (Hsl2 Hres) as [-> Hpos]. simpl.
    rewrite app_nil_r. split; [reflexivity | split; [reflexivity | exact Hpos]].
Qed.

(** In a cycle the requests follow the configured order of the tracked
    companies, one request per company, all for the window of the cycle: the
    requests made are an initial part of that sequence, and the whole of it
    when the cycle comes to its end. *)
Theorem cycle_requests_in_order cfg env self days_back interval_seconds w :
  (exists n,
     requests_of (out_trace (cycle cfg env self days_back interval_seconds w)) =
       firstn n (tracked_requests cfg self
                   (IsoDate (utc_date (now_at env (k_now w)) - days_back))
                   (IsoDate (utc_date (now_at env (k_now w)))))) /\
  (out_result (cycle cfg env self days_back interval_seconds w) = Ok tt ->
   requests_of (out_trace (cycle cfg env self days_back interval_seconds w)) =
     tracked_requests cfg self
       (IsoDate (utc_date (now_at env (k_now w)) - days_back))
       (IsoDate (utc_date (now_at env (k_now w))))).
Proof.
  destruct (cycle_effects cfg env self days_back interval_seconds w) as [Hprefix Hok].
  split; [exact Hprefix |]. intros Hres. apply (Hok Hres).
Qed.

(** The first cycle of the sample world asks for Apple, then for XYZ. *)
Lemma cycle_requests_in_order_witness :
  requests_of (out_trace (cycle sample_cfg sample_env sample_self 7 3600 world0)) =
    [(base_url sample_self,
      params_of sample_self "Apple" (IsoDate 738993) (IsoDate 739000));
     (base_url sample_self,
      params_of sample_self "XYZ" (IsoDate 738993) (IsoDate 739000))].
Proof.
  destruct (cycle_requests_in_order sample_cfg sample_env sample_self 7 3600 world0)
    as [_ Hok].
  rewrite Hok.
  - reflexivity.
  - vm_compute. reflexivity.
Defined.

(** A cycle that comes to its end has slept 2 after each tracked company
    and then the interval, and nothing else; the interval is not negative,
    for [time.sleep] rejects a negative length: with a negative interval no
    cycle ever completes. *)
Theorem completed_cycle_sleeps cfg env self days_back interval_seconds w :
  out_result (cycle cfg env self days_back interval_seconds w) = Ok tt ->
  sleeps_of (out_trace (cycle cfg env self days_back interval_seconds w)) =
    repeat 2 (length (TRACKED_COMPANIES cfg)) ++ [interval_seconds] /\
  0 <= interval_seconds.
Proof.
  intros Hres.
  destruct (cycle_effects cfg env self days_back interval_seconds w) as [_ Hok].
  apply (Hok Hres).
Qed.

(** The first cycle of the sample world: two delays, then the hour. *)
Lemma completed_cycle_sleeps_witness :
  sleeps_of (out_trace (cycle sample_cfg sample_env sample_self 7 3600 world0)) =
    [2; 2; 3600] /\
  0 <= 3600.
Proof.
  apply (completed_cycle_sleeps sample_cfg sample_env sample_self 7 3600 world0).
  vm_compute. reflexivity.
Defined.

(** ** The end of run *)

Lemma run_stages cfg env fuel self days_back interval_seconds w :
  run cfg env fuel self days_back interval_seconds w =
    let '(r, w1, t) := while_true cfg env fuel self days_back interval_seconds w in
    (r, w1,
     [EvPrint (LogStarting (TRACKED_COMPANIES cfg));
      EvPrint (LogTopic (KAFKA_NEWS_TOPIC cfg));
      EvPrint (LogDaysBack days_back);
      EvPrint LogRule] ++ t ++
     match r with
     | Ok Broke => [EvFlush; EvClose; EvPrint LogStopped]
     | _ => []
     end).
Proof.
  unfold run, bind, print, emit, producer_flush, producer_close, ret. simpl.
  destruct (while_true cfg env fuel self days_back interval_seconds w)
    as [[[[|] | e] w1] t]; simpl; rewrite ?app_nil_r; reflexivity.
Qed.

Lemma while_true_no_cleanup cfg env fuel self days_back interval_seconds w :
  Forall no_cleanup (out_trace (while_true cfg env fuel self days_back interval_seconds w)).
Proof.
  assert (Hsat : sat no_cleanup any any
                   (while_true cfg env fuel self days_back interval_seconds)).
  { apply sat_while_true; try (intros; exact I); try (intros; split; reflexivity).
    left. exact I. }
  apply Hsat.
Qed.

Lemma no_cleanup_filter t :
  Forall no_cleanup t -> List.filter is_flush t = [] /\ List.filter is_close t = [].
Proof.
  induction 1 as [| ev rest [Hf Hc] _ [IHf IHc]]; simpl; [auto |].
  rewrite Hf, Hc. auto.
Qed.

(** [run] flushes and closes the producer only when the loop was left by
    the [break]: then it does so once, flush before close, as its last
    actions before the final log line; a run that is still looping, or that
    an exception left, has neither flushed nor closed. *)
Theorem run_cleans_up_once cfg env fuel self days_back interval_seconds w :
  (out_result (run cfg env fuel self days_back interval_seconds w) = Ok Broke ->
   exists t,
     out_trace (run cfg env fuel self days_back interval_seconds w) =
       t ++ [EvFlush; EvClose; EvPrint LogStopped] /\
     List.filter is_flush t = [] /\ List.filter is_close t = []) /\
  (out_result (run cfg env fuel self days_back interval_seconds w) <> Ok Broke ->
   List.filter is_flush (out_trace (run cfg env fuel self days_back interval_seconds w)) = [] /\
   List.filter is_close (out_trace (run cfg env fuel self days_back interval_seconds w)) = []).
Proof.
  rewrite run_stages.
  pose proof (while_true_no_cleanup cfg env fuel self days_back interval_seconds w) as Hloop.
  destruct (while_true cfg env fuel self days_back interval_seconds w) as [[r w1] t].
  unfold out_trace, out_result in *. cbn [fst snd] in *.
  apply no_cleanup_filter in Hloop as [Hf Hc].
  split.
  - intros ->.
    exists ([EvPrint (LogStarting (TRACKED_COMPANIES cfg));
             EvPrint (LogTopic (KAFKA_NEWS_TOPIC cfg));
             EvPrint (LogDaysBack days_back);
             EvPrint LogRule] ++ t).
    split; [rewrite <- app_assoc; reflexivity |]. simpl. auto.
  - intros Hres. destruct r as [[|] | e]; try (exfalso; apply Hres; reflexivity);
      rewrite app_nil_r; simpl; auto.
Qed.

(** An interrupt during the interval sleep ends in the cleanup; a loop that
    goes on has not cleaned up. *)
Lemma run_cleans_up_once_witness :
  (exists t,
     out_trace (run sample_cfg interval_interrupt_env 3 sample_self 7 3600 world0) =
       t ++ [EvFlush; EvClose; EvPrint LogStopped] /\
     List.filter is_flush t = [] /\ List.filter is_close t = []) /\
  List.filter is_flush (out_trace (run sample_cfg sample_env 1 sample_self 7 3600 world0)) = [].
Proof.
  destruct (run_cleans_up_once sample_cfg interval_interrupt_env 3 sample_self 7 3600 world0)
    as [Hstop _].
  destruct (run_cleans_up_once sample_cfg sample_env 1 sample_self 7 3600 world0)
    as [_ Hloop].
  split.
  - apply Hstop. vm_compute. reflexivity.
  - apply Hloop. vm_compute. discriminate.
Defined.

(** ** The requests of the process *)

Lemma requests_of_In u params t :
  In (EvHttpGet u params) t -> In (u, params) (requests_of t).
Proof.
  intros Hin. unfold requests_of. apply in_flat_map.
  exists (EvHttpGet u params). split; [exact Hin | left; reflexivity].
Qed.

Lemma In_firstn {A} (x : A) n l : In x (firstn n l) -> In x l.
Proof.
  revert l. induction n as [| n IH]; intros [| y l]; simpl; try tauto.
  intros [H | H]; [left; exact H | right; apply IH; exact H].
Qed.

Lemma sat_cooldown_any env P : P (EvSleep 60) -> sat P any any (sleep env 60).
Proof.
  intros Hp w. unfold sleep. simpl.
  split; [repeat constructor; exact Hp |].
  unfold out_result. simpl. destruct (interrupted env (k_sleep w)); exact I.
Qed.

(** A property of events that holds in every cycle, of log lines and of
    the cooldown, holds throughout the loop. *)
Lemma sat_while_true_of_cycle cfg env P self days_back interval_seconds :
  (forall l, P (EvPrint l)) -> P (EvSleep 60) ->
  sat P any any (cycle cfg env self days_back interval_seconds) ->
  forall fuel, sat P any any (while_true cfg env fuel self days_back interval_seconds).
Proof.
  intros Hprint Hsleep Hcycle fuel. induction fuel as [| n IH]; simpl.
  - apply sat_ret. exact I.
  - eapply sat_bind; [apply sat_attempt with (E := any); exact Hcycle |].
    intros [[] | e] _; [exact IH |].
    unfold is_Exception. destruct (is_KeyboardInterrupt e); simpl.
    + apply sat_bind with (Q1 := any); [apply sat_print; [apply Hprint | exact I] |].
      intros _ _. apply sat_ret. exact I.
    + apply sat_bind with (Q1 := any); [apply sat_print; [apply Hprint | exact I] |].
      intros _ _.
      apply sat_bind with (Q1 := any); [apply sat_cooldown_any; exact Hsleep |].
      intros _ _. exact IH.
Qed.

Lemma cycle_requests_configured cfg env self days_back interval_seconds :
  base_url self = "https://newsapi.org/v2/everything" ->
  api_key self = NEWS_API_KEY cfg ->
  sat (configured_request cfg days_back) any any
      (cycle cfg env self days_back interval_seconds).
Proof.
  intros Hurl Hkey w. split; [| destruct (out_result _); exact I].
  apply List.Forall_forall. intros ev Hin.
  destruct ev as [l | b | u params | topic key value | seconds | |]; try exact I.
  apply requests_of_In in Hin.
  destruct (cycle_effects cfg env self days_back interval_seconds w) as [[n Hn] _].
  rewrite Hn in Hin. apply In_firstn in Hin. unfold tracked_requests in Hin.
  apply in_map_iff in Hin as (sym & Heq & Hsym).
  injection Heq as <- <-. simpl.
  repeat split; try assumption; try reflexivity.
  - exists sym. split; [exact Hsym | reflexivity].
  - lia.
Qed.

(** Every request of the process goes to the news endpoint with the API key
    of the configuration, in English, sorted by publication, with page size
    100, for the name of one of the tracked companies and a window of seven
    days. *)
Theorem process_requests_are_configured cfg env fuel u params :
  In (EvHttpGet u params) (snd (main cfg env fuel)) ->
  u = "https://newsapi.org/v2/everything" /\
  apiKey params = NEWS_API_KEY cfg /\
  language params = "en" /\
  sortBy params = "publishedAt" /\
  pageSize params = 100 /\
  (exists sym, In sym (TRACKED_COMPANIES cfg) /\ q params = mapped_name cfg sym) /\
  iso_ordinal (to_date params) - iso_ordinal (from_date params) = 7.
Proof.
  intros Hin.
  assert (Hsat : sat (configured_request cfg 7) any any
                   (producer <- init cfg env ;; run cfg env fuel producer 7 3600)).
  { unfold init.
    apply sat_bind with (Q1 := fun self => base_url self = "https://newsapi.org/v2/everything"
                                           /\ api_key self = NEWS_API_KEY cfg).
    - apply sat_bind with (Q1 := any); [apply sat_emit; exact I |].
      intros _ _. destruct (connect env) as [e |].
      + apply sat_raise. exact I.
      + apply sat_ret. split; reflexivity.
    - intros self [Hurl Hkey]. unfold run.
      repeat (apply sat_bind with (Q1 := any); [apply sat_print; exact I | intros _ _]).
      apply sat_bind with (Q1 := any).
      + apply sat_while_true_of_cycle; try (intros; exact I).
        apply cycle_requests_configured; assumption.
      + intros [|] _; [apply sat_ret; exact I |].
        repeat (apply sat_bind with (Q1 := any); [apply sat_emit; exact I | intros _ _]).
        apply sat_ret. exact I. }
  assert (Hall : Forall (configured_request cfg 7) (snd (main cfg env fuel))).
  { unfold main. destruct (key_not_configured cfg).
    - repeat constructor.
    - destruct (Hsat world0) as [Hall _]. unfold out_trace in Hall.
      destruct ((producer <- init cfg env ;; run cfg env fuel producer 7 3600) world0)
        as [[[[|] | e] w1] t]; exact Hall. }
  rewrite List.Forall_forall in Hall. exact (Hall _ Hin).
Qed.

(** The first request of the sample process. *)
Lemma process_requests_are_configured_witness :
  apiKey (params_of sample_self "Apple" (IsoDate 738993) (IsoDate 739000)) =
    NEWS_API_KEY sample_cfg /\
  pageSize (params_of sample_self "Apple" (IsoDate 738993) (IsoDate 739000)) = 100.
Proof.
  destruct (process_requests_are_configured sample_cfg sample_env 1
              "https://newsapi.org/v2/everything"
              (params_of sample_self "Apple" (IsoDate 738993) (IsoDate 739000)))
    as (_ & Hkey & _ & _ & Hsize & _).
  - vm_compute. do 6 right. left. reflexivity.
  - split; [exact Hkey | exact Hsize].
Defined.

(** ** The exit of the process *)

Lemma main_stages cfg env fuel :
  key_not_configured cfg = false ->
  main cfg env fuel =
    match connect env with
    | Some e => (Crashed e, [EvConnect (KAFKA_BOOTSTRAP_SERVERS cfg)])
    | None =>
        let '(r, w1, t) :=
          run cfg env fuel
            {| api_key := NEWS_API_KEY cfg;
               base_url := "https://newsapi.org/v2/everything" |} 7 3600 world0 in
        (match r with
         | Ok StillRunning => Alive
         | Ok Broke => Exited 0
         | Raise e => Crashed e
         end,
         EvConnect (KAFKA_BOOTSTRAP_SERVERS cfg) :: t)
    end.
Proof.
  intros Hkey. unfold main. rewrite Hkey. unfold init, bind, emit, raise, ret. simpl.
  destruct (connect env) as [e |]; [reflexivity |].
  destruct (run cfg env fuel _ 7 3600 world0) as [[[[|] | e] w1] t]; reflexivity.
Qed.

(** The process ends with status 0 only after a clean stop: the key was
    configured, the producer was constructed before anything else, and the
    trace ends with the flush and the close of the producer, which happen
    nowhere before.  And when the constructor of the producer raises, the
    process dies of that exception with no request made. *)
Theorem exit_0_follows_cleanup cfg env fuel :
  (fst (main cfg env fuel) = Exited 0 ->
   key_not_configured cfg = false /\
   connect env = None /\
   exists t,
     snd (main cfg env fuel) =
       EvConnect (KAFKA_BOOTSTRAP_SERVERS cfg) :: t ++ [EvFlush; EvClose; EvPrint LogStopped] /\
     List.filter is_flush t = [] /\ List.filter is_close t = []) /\
  (forall e,
     key_not_configured cfg = false -> connect env = Some e ->
     main cfg env fuel = (Crashed e, [EvConnect (KAFKA_BOOTSTRAP_SERVERS cfg)])).
Proof.
  destruct (key_not_configured cfg) eqn:Hkey.
  - unfold main. rewrite Hkey. simpl. split; [discriminate |].
    intros e H. discriminate.
  - rewrite (main_stages cfg env fuel Hkey).
    destruct (connect env) as [e0 |].
    + simpl. split; [discriminate |].
      intros e _ H. injection H as <-. reflexivity.
    + set (self := {| api_key := NEWS_API_KEY cfg;
                      base_url := "https://newsapi.org/v2/everything" |}).
      rewrite run_stages.
      pose proof (while_true_no_cleanup cfg env fuel self 7 3600 world0) as Hloop.
      destruct (while_true cfg env fuel self 7 3600 world0) as [[r w1] t].
      unfold out_trace in Hloop. cbn [fst snd] in *.
      apply no_cleanup_filter in Hloop as [Hf Hc].
      split.
      * intros Hexit. split; [reflexivity |]. split; [reflexivity |].
        destruct r as [[|] | e]; try discriminate.
        exists ([EvPrint (LogStarting (TRACKED_COMPANIES cfg));
                 EvPrint (LogTopic (KAFKA_NEWS_TOPIC cfg));
                 EvPrint (LogDaysBack 7);
                 EvPrint LogRule] ++ t).
        split; [rewrite <- app_assoc; reflexivity |]. simpl. auto.
      * intros e _ H. discriminate.
Qed.

(** The sample process interrupted during the interval sleep ends with
    status 0, its producer constructed; the same process dies when no broker
    can be reached at startup. *)
Lemma exit_0_follows_cleanup_witness :
  key_not_configured sample_cfg = false /\
  connect interval_interrupt_env = None /\
  main sample_cfg unreachable_broker_env 3 =
    (Crashed (KafkaError NoBrokersAvailable), [EvConnect "localhost:9092"]).
Proof.
  destruct (exit_0_follows_cleanup sample_cfg interval_interrupt_env 3) as (Hclean & _).
  destruct (exit_0_follows_cleanup sample_cfg unreachable_broker_env 3) as (_ & Hcrash).
  destruct Hclean as (Hkey & Hconn & _); [vm_compute; reflexivity |].
  split; [exact Hkey |]. split; [exact Hconn |].
  apply Hcrash; reflexivity.
Defined.

(** ** Interrupt inside a cycle *)

(** When [KeyboardInterrupt] is raised inside a cycle (during the fetch, a
    publish, a delay or the interval sleep), the loop logs the shutdown and
    breaks at once, whatever the number of cycles it could still run; [run]
    then flushes and closes the producer and returns. *)
Theorem interrupt_in_cycle_stops_run cfg env n self days_back interval_seconds w w1 t1 :
  cycle cfg env self days_back interval_seconds w = (Raise KeyboardInterrupt, w1, t1) ->
  while_true cfg env (S n) self days_back interval_seconds w =
    (Ok Broke, w1, t1 ++ [EvPrint LogShuttingDown]) /\
  run cfg env (S n) self days_back interval_seconds w =
    (Ok Broke, w1,
     [EvPrint (LogStarting (TRACKED_COMPANIES cfg));
      EvPrint (LogTopic (KAFKA_NEWS_TOPIC cfg));
      EvPrint (LogDaysBack days_back);
      EvPrint LogRule] ++
     t1 ++ [EvPrint LogShuttingDown; EvFlush; EvClose; EvPrint LogStopped]).
Proof.
  intros Hcycle. split.
  - apply while_true_interrupted. exact Hcycle.
  - apply run_interrupted. exact Hcycle.
Qed.

(** The interrupt arrives while AAPL is being fetched. *)
Lemma interrupt_in_cycle_stops_run_witness :
  while_true sample_cfg fetch_interrupt_env 5 sample_self 7 3600 world0 =
    (Ok Broke, tick_http (tick_now world0),
     [EvPrint (LogFetching "Apple" "AAPL");
      EvHttpGet "https://newsapi.org/v2/everything"
        (params_of sample_self "Apple" (IsoDate 738993) (IsoDate 739000));
      EvPrint LogShuttingDown]).
Proof.
  destruct (interrupt_in_cycle_stops_run sample_cfg fetch_interrupt_env 4 sample_self
              7 3600 world0 (tick_http (tick_now world0))
              [EvPrint (LogFetching "Apple" "AAPL");
               EvHttpGet "https://newsapi.org/v2/everything"
                 (params_of sample_self "Apple" (IsoDate 738993) (IsoDate 739000))])
    as [Hloop _].
  - vm_compute. reflexivity.
  - rewrite Hloop. reflexivity.
Defined.

(** ** A body that is not an object *)

(** When the body of a response that is no HTTP error is JSON but not an
    object (a list, a string, a number, null), reading its status raises
    [TypeError], which [fetch_news] does not catch. *)
Theorem fetch_news_body_not_object env self sym name from_d to_d w r data :
  http_at env (k_http w) = HttpResponds r ->
  request_error (HttpResponds r) = None ->
  body r = Some data ->
  is_dict data = false ->
  fetch_news env self sym name from_d to_d w =
    (Raise TypeError, tick_http w,
     [EvHttpGet (base_url self) (params_of self name from_d to_d)]).
Proof.
  intros Hhttp Herr Hbody Hdata. simpl in Herr.
  unfold fetch_news, try_except, bind, requests_get, lift, raise_for_status, response_json.
  rewrite Hhttp.
  destruct ((400 <=? status_code r) && (status_code r <? 600))%bool; [discriminate |].
  rewrite Hbody.
  destruct data as [| b | z | s | l | items]; try reflexivity. discriminate.
Qed.

(** The API answers with a JSON list. *)
Lemma fetch_news_body_not_object_witness :
  out_result (fetch_news (with_http (fun _ => responds 200 (Some (PList []))) sample_env)
                sample_self "AAPL" "Apple" (IsoDate 738993) (IsoDate 739000) world0) =
    Raise TypeError.
Proof.
  rewrite (fetch_news_body_not_object
             (with_http (fun _ => responds 200 (Some (PList []))) sample_env)
             sample_self "AAPL" "Apple" (IsoDate 738993) (IsoDate 739000) world0
             {| status_code := 200; body := Some (PList []) |} (PList []));
    reflexivity.
Defined.

(** ** A status that is not ok *)

(** The API reports an error in a 200 response: the message is logged and
    no article comes back. *)
Lemma fetch_news_status_not_ok_witness :
  fetch_news error_status_env sample_self "AAPL" "Apple" (IsoDate 738993) (IsoDate 739000)
      world0 =
    (Ok (PList []), tick_http world0,
     [EvHttpGet (base_url sample_self)
        (params_of sample_self "Apple" (IsoDate 738993) (IsoDate 739000));
      EvPrint (LogApiError (PStr "rate limited"))]).
Proof.
  rewrite (fetch_news_status_not_ok error_status_env sample_self "AAPL" "Apple"
             (IsoDate 738993) (IsoDate 739000) world0
             {| status_code := 200;
                body := Some (PDict [("status", PStr "error");
                                     ("message", PStr "rate limited")]) |}
             [("status", PStr "error"); ("message", PStr "rate limited")]
             (PStr "error"));
    reflexivity.
Defined.
